(** * juno-broadcast: the submission client and status resolver

    A shallow embedding of [internal/broadcast/broadcast.go]: the
    constructor [New] with its option [WithPollInterval], and the three
    operations [Submit], [Status] and [WaitForConfirmations], together
    with the helpers [normalizeHex] and [isNotFoundErr].

    Go strings are byte sequences and are modelled by [string] (a list of
    8-bit [ascii]); [int64] and [time.Duration] values are modelled by [Z]
    (the code only compares them, it never does arithmetic on them, except
    for the constant [500 * time.Millisecond]).  The remote daemon is an
    arbitrary state machine over a world type [W]; every call made on the
    transport is recorded in a trace so that "makes no call" and "never
    queries" are statements about that trace. *)

From Stdlib Require Import ZArith NArith List String Ascii Bool Lia.
Import ListNotations.

Local Open Scope string_scope.
Local Open Scope Z_scope.

(** ** The parts of Go's standard library the package uses *)

Module Go.

(** [len(s)]: the number of bytes. *)
Definition len (s : string) : Z := Z.of_nat (String.length s).

Definition byte (n : N) : ascii := ascii_of_N n.
Definition code (c : ascii) : N := N_of_ascii c.

Definition inRange (lo hi : N) (c : ascii) : bool :=
  (N.leb lo (code c) && N.leb (code c) hi)%bool.

(** *** unicode/utf8 and strings.TrimSpace

    [strings.TrimSpace] removes leading, then trailing, runes for which
    [unicode.IsSpace] holds.  The white-space runes are the six ASCII ones
    below and U+0085, U+00A0, U+1680, U+2000..U+200A, U+2028, U+2029,
    U+202F, U+205F, U+3000; a rune is recognised at either end exactly
    when the bytes there are its (shortest-form) UTF-8 encoding, which for
    these runes takes one, two or three bytes. *)

(** The table [asciiSpace]: tab, newline, vertical tab, form feed,
    carriage return, space. *)
Definition asciiSpace (c : ascii) : bool :=
  (inRange 9 13 c || N.eqb (code c) 32)%bool.

(** U+0085 is C2 85 and U+00A0 is C2 A0. *)
Definition space2 (c1 c2 : ascii) : bool :=
  (N.eqb (code c1) 194 && (N.eqb (code c2) 133 || N.eqb (code c2) 160))%bool.

(** U+1680 is E1 9A 80; U+2000..U+200A are E2 80 80..8A; U+2028, U+2029
    and U+202F are E2 80 A8, A9, AF; U+205F is E2 81 9F; U+3000 is
    E3 80 80. *)
Definition space3 (c1 c2 c3 : ascii) : bool :=
  let a := code c1 in
  let b := code c2 in
  ((N.eqb a 225 && N.eqb b 154 && N.eqb (code c3) 128)
   || (N.eqb a 226 && N.eqb b 128
       && (inRange 128 138 c3 || inRange 168 169 c3 || N.eqb (code c3) 175))
   || (N.eqb a 226 && N.eqb b 129 && N.eqb (code c3) 159)
   || (N.eqb a 227 && N.eqb b 128 && N.eqb (code c3) 128))%bool.

(** Drop white-space runes from the front of a byte list.  [two] and
    [three] recognise the multi-byte encodings in the order in which the
    bytes are met, so that the same function serves the reversed list. *)
Fixpoint dropSpaces (two : ascii -> ascii -> bool)
  (three : ascii -> ascii -> ascii -> bool) (l : list ascii) : list ascii :=
  match l with
  | [] => []
  | c1 :: r1 =>
      if asciiSpace c1 then dropSpaces two three r1
      else
        match r1 with
        | [] => l
        | c2 :: r2 =>
            if two c1 c2 then dropSpaces two three r2
            else
              match r2 with
              | [] => l
              | c3 :: r3 =>
                  if three c1 c2 c3 then dropSpaces two three r3 else l
              end
        end
  end.

Definition TrimLeftSpace (l : list ascii) : list ascii :=
  dropSpaces space2 space3 l.

Definition TrimRightSpace (l : list ascii) : list ascii :=
  rev (dropSpaces (fun c2 c1 => space2 c1 c2)
                  (fun c3 c2 c1 => space3 c1 c2 c3) (rev l)).

Definition TrimSpace (s : string) : string :=
  string_of_list_ascii
    (TrimRightSpace (TrimLeftSpace (list_ascii_of_string s))).

(** *** strings.ToLower

    On a string of ASCII bytes only, [ToLower] maps 'A'..'Z' to 'a'..'z'
    byte by byte.  On any other string it is
    [strings.Map(unicode.ToLower, s)], which depends on the Unicode case
    tables; that function is the parameter [mapLower]. *)

Definition isASCII (c : ascii) : bool := N.ltb (code c) 128.

Definition lowerByte (c : ascii) : ascii :=
  if inRange 65 90 c then byte (code c + 32) else c.

Definition ToLower (mapLower : string -> string) (s : string) : string :=
  let l := list_ascii_of_string s in
  if forallb isASCII l then string_of_list_ascii (map lowerByte l)
  else mapLower s.

(** *** strings.Contains *)

Fixpoint Contains (s substr : string) : bool :=
  (prefix substr s
   || match s with
      | EmptyString => false
      | String _ r => Contains r substr
      end)%bool.

(** *** encoding/hex *)

Inductive hexError : Type :=
| InvalidByteError (c : ascii)
| ErrLength.

(** [fromHexChar] through [reverseHexTable]: [None] stands for the
    table's 0xff entries. *)
Definition fromHexChar (c : ascii) : option N :=
  if inRange 48 57 c then Some (code c - 48)%N
  else if inRange 97 102 c then Some (code c - 87)%N
  else if inRange 65 70 c then Some (code c - 55)%N
  else None.

(** [hex.Decode]: pairs of digits are decoded from the left; a trailing
    single byte is reported as invalid if it is no digit, and as
    [ErrLength] otherwise.  The bytes decoded so far are returned with the
    error. *)
Fixpoint Decode (src : string) : list N * option hexError :=
  match src with
  | EmptyString => ([], None)
  | String p EmptyString =>
      match fromHexChar p with
      | None => ([], Some (InvalidByteError p))
      | Some _ => ([], Some ErrLength)
      end
  | String p (String q rest) =>
      match fromHexChar p with
      | None => ([], Some (InvalidByteError p))
      | Some a =>
          match fromHexChar q with
          | None => ([], Some (InvalidByteError q))
          | Some b =>
              let (dst, err) := Decode rest in
              (N.lor (N.shiftl a 4) b :: dst, err)
          end
      end
  end.

Definition DecodeString (s : string) : list N * option hexError := Decode s.

(** *** Errors

    A Go [error] is modelled by its unwrap chain: a leaf is either a
    [*junocashd.RPCError] (code and message) or an error of any other
    type, identified by its message (as [errors.New] makes them);
    [Errorf_w prefix e] is [fmt.Errorf(prefix + "%w", e)]. *)

Record RPCError : Type := { Code : Z; Message : string }.

Inductive error : Type :=
| errors_New (msg : string)
| ErrRPC (e : RPCError)
| Errorf_w (prefix : string) (err : error).

(** [errors.As(err, &rpcErr)] with [rpcErr] of type [*junocashd.RPCError]:
    the first error of that type along the chain. *)
Fixpoint As_RPCError (err : error) : option RPCError :=
  match err with
  | errors_New _ => None
  | ErrRPC e => Some e
  | Errorf_w _ inner => As_RPCError inner
  end.

End Go.

Import Go.

(** ** The package's data *)

(** [TxStatus], and its zero value [TxStatus{}]. *)
Record TxStatus : Type := {
  TxID : string;
  InMempool : bool;
  Confirmations : Z;
  BlockHash : string
}.

Definition zeroTxStatus : TxStatus :=
  {| TxID := ""; InMempool := false; Confirmations := 0; BlockHash := "" |}.

(** The elements of a [[]any] parameter list. *)
Inductive any : Type :=
| AString (s : string)
| AInt (n : Z)
| ABool (b : bool).

(** The anonymous struct [verbose] that [Status] decodes the reply of
    [getrawtransaction] into, and its zero value. *)
Record verboseTx : Type := {
  v_TxID : string;
  v_BlockHash : string;
  v_Confirmations : Z
}.

Definition zeroVerbose : verboseTx :=
  {| v_TxID := ""; v_BlockHash := ""; v_Confirmations := 0 |}.

(** The two types of the [out] pointer handed to [RPC.Call]. *)
Inductive outKind : Type :=
| OutVerbose
| OutStrings.

Definition outType (o : outKind) : Type :=
  match o with
  | OutVerbose => verboseTx
  | OutStrings => list string
  end.

(** What the package did on the transport, in order. *)
Inductive Event : Type :=
| EvCall (method : string) (params : list any)
| EvSendRawTransaction (txHex : string).

(** How a call of [WaitForConfirmations] ends: it returns, it panics
    ([time.NewTicker] does for a non-positive interval), or it is still
    polling when the fuel given to the model is used up. *)
Inductive outcome (A : Type) : Type :=
| Returned (a : A)
| Panicked (msg : string)
| StillPolling.

Arguments Returned {A} a.
Arguments Panicked {A} msg.
Arguments StillPolling {A}.

Section Broadcast.

(** The state of everything outside the package: the daemon, the network,
    the clock and the caller's context. *)
Variable W : Type.

(** [strings.Map(unicode.ToLower, s)], used by [strings.ToLower] on
    strings that have a byte above 0x7f. *)
Variable mapLower : string -> string.

(** A [context.Context] as the package uses it: the [select] at the end
    of a poll round waits for [ctx.Done()] or the ticker, and the world
    decides which comes first; [Some e] is cancellation with
    [ctx.Err() = e]. *)
Record Context : Type := {
  selectDoneOrTick : W -> W * option error
}.

(** The interface [RPC].  [Call] writes the decoded reply through [out];
    the model returns the value [out] points to afterwards, which starts
    as the zero value of its type. *)
Record RPC : Type := {
  Call : Context -> string -> list any -> forall o : outKind,
         W -> W * (outType o * option error);
  SendRawTransaction : Context -> string -> W -> W * (string * option error)
}.

Record Client : Type := {
  rpc : RPC;
  pollInterval : Z
}.

(** [Option] is a function that is given a pointer to the client and may
    assign to it; the model returns the client it leaves behind. *)
Definition Option : Type := Client -> Client.

(** The machine state: the world and the trace of transport calls. *)
Record State : Type := {
  world : W;
  trace : list Event
}.

Definition M (A : Type) : Type := State -> State * A.

Definition ret {A : Type} (a : A) : M A := fun s => (s, a).

Definition bind {A B : Type} (m : M A) (k : A -> M B) : M B :=
  fun s => let (s', a) := m s in k a s'.

Notation "x <- m ;; k" := (bind m (fun x => k))
  (at level 61, m at next level, right associativity).
Notation "' p <- m ;; k" := (bind m (fun x => let p := x in k))
  (at level 61, p pattern, m at next level, right associativity).

(** A call of [c.rpc.Call], recorded. *)
Definition doCall (c : Client) (ctx : Context) (method : string)
  (params : list any) (o : outKind) : M (outType o * option error) :=
  fun s =>
    let (w, r) := Call (rpc c) ctx method params o (world s) in
    ({| world := w; trace := trace s ++ [EvCall method params] |}, r).

(** A call of [c.rpc.SendRawTransaction], recorded. *)
Definition doSendRawTransaction (c : Client) (ctx : Context)
  (txHex : string) : M (string * option error) :=
  fun s =>
    let (w, r) := SendRawTransaction (rpc c) ctx txHex (world s) in
    ({| world := w; trace := trace s ++ [EvSendRawTransaction txHex] |}, r).

(** The [select] of the wait loop; it is no transport call. *)
Definition doSelect (ctx : Context) : M (option error) :=
  fun s =>
    let (w, r) := selectDoneOrTick ctx (world s) in
    ({| world := w; trace := trace s |}, r).

(** ** The package's functions *)

Definition Millisecond : Z := 1000000.

Definition WithPollInterval (d : Z) : Option :=
  fun c =>
    if 0 <? d then {| rpc := rpc c; pollInterval := d |} else c.

(** The loop of [New] over [opts]; a [nil] option is skipped. *)
Fixpoint applyOpts (opts : list (option Option)) (c : Client) : Client :=
  match opts with
  | [] => c
  | None :: rest => applyOpts rest c
  | Some opt :: rest => applyOpts rest (opt c)
  end.

Definition New (r : option RPC) (opts : list (option Option))
  : option Client * option error :=
  match r with
  | None => (None, Some (errors_New "broadcast: rpc is nil"))
  | Some r =>
      let c := {| rpc := r; pollInterval := 500 * Millisecond |} in
      (Some (applyOpts opts c), None)
  end.

Definition normalizeHex (s : string) : string * option error :=
  let s := TrimSpace s in
  if String.eqb s "" then
    ("", Some (errors_New "broadcast: raw tx hex is required"))
  else
    match snd (DecodeString s) with
    | Some _ => ("", Some (errors_New "broadcast: raw tx hex must be hex"))
    | None => (s, None)
    end.

Definition notFoundPhrasing (msg : string) : bool :=
  (Contains msg "no such mempool"
   || Contains msg "no such"
   || Contains msg "not found")%bool.

Definition isNotFoundErr (err : error) : bool :=
  match As_RPCError err with
  | None => false
  | Some rpcErr => notFoundPhrasing (ToLower mapLower (Message rpcErr))
  end.

(** The test [err != nil || len(txid) != 64] on [hex.DecodeString(txid)]. *)
Definition badTxID (txid : string) : bool :=
  match snd (DecodeString txid) with
  | Some _ => true
  | None => negb (len txid =? 64)
  end.

Definition Submit (c : Client) (ctx : Context) (rawTxHex : string)
  : M (string * option error) :=
  let '(raw, err) := normalizeHex rawTxHex in
  match err with
  | Some err => ret ("", Some err)
  | None =>
      '(txid, err) <- doSendRawTransaction c ctx raw ;;
      match err with
      | Some err => ret ("", Some err)
      | None =>
          let txid := ToLower mapLower (TrimSpace txid) in
          if badTxID txid then
            ret ("", Some (errors_New "broadcast: node returned invalid txid"))
          else ret (txid, None)
      end
  end.

(** The loop of [Status] over the mempool listing: whether some listed
    id, trimmed and lower-cased, is [txid]. *)
Fixpoint inListing (mempool : list string) (txid : string) : bool :=
  match mempool with
  | [] => false
  | id :: rest =>
      if String.eqb (ToLower mapLower (TrimSpace id)) txid then true
      else inListing rest txid
  end.

Definition Status (c : Client) (ctx : Context) (txid : string)
  : M (TxStatus * bool * option error) :=
  let txid := ToLower mapLower (TrimSpace txid) in
  if badTxID txid then
    ret (zeroTxStatus, false,
         Some (errors_New "broadcast: txid must be 32-byte hex"))
  else
    '(verbose, err) <-
      doCall c ctx "getrawtransaction" [AString txid; AInt 1] OutVerbose ;;
    match err with
    | None =>
        ret ({| TxID := txid;
                InMempool := (v_Confirmations verbose =? 0)
                             && String.eqb (v_BlockHash verbose) "";
                Confirmations := v_Confirmations verbose;
                BlockHash := TrimSpace (v_BlockHash verbose) |},
             true, None)
    | Some err =>
        if negb (isNotFoundErr err) then ret (zeroTxStatus, false, Some err)
        else
          '(mempool, err) <-
            doCall c ctx "getrawmempool" [ABool false] OutStrings ;;
          match err with
          | Some err =>
              ret (zeroTxStatus, false,
                   Some (Errorf_w "broadcast: getrawmempool: " err))
          | None =>
              if inListing mempool txid then
                ret ({| TxID := txid; InMempool := true;
                        Confirmations := 0; BlockHash := "" |},
                     true, None)
              else ret (zeroTxStatus, false, None)
          end
    end.

(** The [for] loop of [WaitForConfirmations]; [fuel] bounds the number of
    polls the model follows. *)
Fixpoint pollLoop (fuel : nat) (c : Client) (ctx : Context) (txid : string)
  (confirmations : Z) : M (outcome (TxStatus * option error)) :=
  match fuel with
  | O => ret StillPolling
  | S fuel' =>
      '(st, found, err) <- Status c ctx txid ;;
      match err with
      | Some err => ret (Returned (zeroTxStatus, Some err))
      | None =>
          if (found && ((confirmations =? 0)
                        || (confirmations <=? Confirmations st)))%bool
          then ret (Returned (st, None))
          else
            done <- doSelect ctx ;;
            match done with
            | Some ctxErr => ret (Returned (zeroTxStatus, Some ctxErr))
            | None => pollLoop fuel' c ctx txid confirmations
            end
      end
  end.

Definition WaitForConfirmations (fuel : nat) (c : Client) (ctx : Context)
  (txid : string) (confirmations : Z)
  : M (outcome (TxStatus * option error)) :=
  if confirmations <? 0 then
    ret (Returned (zeroTxStatus,
                   Some (errors_New "broadcast: confirmations must be >= 0")))
  else if pollInterval c <=? 0 then
    ret (Panicked "non-positive interval for NewTicker")
  else pollLoop fuel c ctx txid confirmations.

End Broadcast.

Arguments Call {W} r ctx method params o w.
Arguments SendRawTransaction {W} r ctx txHex w.
Arguments selectDoneOrTick {W} c w.
Arguments rpc {W} c.
Arguments pollInterval {W} c.
Arguments world {W} s.
Arguments trace {W} s.
Arguments WithPollInterval {W} d c.
Arguments New {W} r opts.
Arguments applyOpts {W} opts c.
Arguments Submit {W} mapLower c ctx rawTxHex s.
Arguments Status {W} mapLower c ctx txid s.
Arguments pollLoop {W} mapLower fuel c ctx txid confirmations s.
Arguments WaitForConfirmations {W} mapLower fuel c ctx txid confirmations s.
Arguments doSelect {W} ctx s.
Arguments doCall {W} c ctx method params o s.
Arguments doSendRawTransaction {W} c ctx txHex s.

(** ** What the specification calls things *)

(** The error classes of the specification, by the errors the package
    makes for them. *)
Definition InvalidInput (e : error) : Prop :=
  e = errors_New "broadcast: raw tx hex is required"
  \/ e = errors_New "broadcast: raw tx hex must be hex"
  \/ e = errors_New "broadcast: txid must be 32-byte hex"
  \/ e = errors_New "broadcast: confirmations must be >= 0".

Definition ProtocolError (e : error) : Prop :=
  e = errors_New "broadcast: node returned invalid txid".

Definition ConfigError (e : error) : Prop :=
  e = errors_New "broadcast: rpc is nil".

(** A hexadecimal digit, of either case. *)
Definition isHexDigit (c : ascii) : bool :=
  (inRange 48 57 c || inRange 97 102 c || inRange 65 70 c)%bool.

Definition allHexDigits (s : string) : bool :=
  forallb isHexDigit (list_ascii_of_string s).

(** Valid hexadecimal: whole bytes, written with hexadecimal digits. *)
Definition validHex (s : string) : bool :=
  (Nat.even (String.length s) && allHexDigits s)%bool.

(** Exactly 64 hexadecimal characters. *)
Definition is64Hex (s : string) : bool :=
  (Nat.eqb (String.length s) 64 && allHexDigits s)%bool.

(** The data-model invariant of a transaction status. *)
Definition statusInvariant (st : TxStatus) : Prop :=
  (InMempool st = true -> Confirmations st = 0)
  /\ (BlockHash st <> "" -> 0 < Confirmations st)
  /\ 0 <= Confirmations st.

(** An error is, or wraps, a given [*junocashd.RPCError]. *)
Inductive IsOrWraps : error -> RPCError -> Prop :=
| IsRPC : forall r, IsOrWraps (ErrRPC r) r
| WrapsRPC : forall prefix e r, IsOrWraps e r -> IsOrWraps (Errorf_w prefix e) r.

(** The target of [WaitForConfirmations]: a poll result without error,
    found, and deep enough. *)
Definition reached (confirmations : Z) (r : TxStatus * bool * option error)
  : bool :=
  match r with
  | (st, found, None) =>
      (found && ((confirmations =? 0) || (confirmations <=? Confirmations st)))%bool
  | (_, _, Some _) => false
  end.

Section Resolution.

Variable W : Type.
Variable mapLower : string -> string.

(** The identifier as [Status] uses it: trimmed and lower-cased. *)
Definition normalized (txid : string) : string :=
  ToLower mapLower (TrimSpace txid).

(** The state after the direct lookup, and after the mempool listing. *)
Definition lookedUp (txid : string) (s : State W) (w : W) : State W :=
  {| world := w;
     trace := trace s
              ++ [EvCall "getrawtransaction" [AString (normalized txid); AInt 1]] |}.

Definition listed (txid : string) (s : State W) (w : W) : State W :=
  {| world := w;
     trace := trace s
              ++ [EvCall "getrawtransaction" [AString (normalized txid); AInt 1];
                  EvCall "getrawmempool" [ABool false]] |}.

End Resolution.

Arguments lookedUp {W} mapLower txid s w.
Arguments listed {W} mapLower txid s w.

(** A direct-lookup reply that keeps to the data model: confirmations are
    not negative, and a block hash that is not blank comes with at least
    one confirmation. *)
Definition replyInvariant (v : verboseTx) : Prop :=
  0 <= v_Confirmations v
  /\ (TrimSpace (v_BlockHash v) <> "" -> 0 < v_Confirmations v).

Section Polls.

Variable W : Type.
Variable mapLower : string -> string.
Variables (c : Client W) (ctx : Context W) (txid : string).

(** The state in which the next poll starts, when this one is followed by
    the [select]. *)
Definition afterRound (s : State W) : State W :=
  fst (doSelect ctx (fst (Status mapLower c ctx txid s))).

(** The state in which poll number [n] (from 0) starts. *)
Fixpoint pollState (n : nat) (s : State W) : State W :=
  match n with
  | O => s
  | S n' => pollState n' (afterRound s)
  end.

(** Poll number [n]: the state it leaves and what [Status] returns. *)
Definition poll (n : nat) (s : State W)
  : State W * (TxStatus * bool * option error) :=
  Status mapLower c ctx txid (pollState n s).

(** Poll [n] returns no error and misses the target, and the ticker fires
    before the context is done. *)
Definition goesOn (confirmations : Z) (n : nat) (s : State W) : bool :=
  match poll n s with
  | (s', (st, found, None)) =>
      (negb (reached confirmations (st, found, None))
       && match snd (doSelect ctx s') with
          | None => true
          | Some _ => false
          end)%bool
  | (_, (_, _, Some _)) => false
  end.

End Polls.

Arguments afterRound {W} mapLower c ctx txid s.
Arguments pollState {W} mapLower c ctx txid n s.
Arguments poll {W} mapLower c ctx txid n s.
Arguments goesOn {W} mapLower c ctx txid confirmations n s.

(** ** Test doubles, after [broadcast_test.go] *)

Module Fake.

(** [strings.Repeat] of a one-byte string. *)
Definition Repeat (ch : ascii) (n : nat) : string :=
  string_of_list_ascii (repeat ch n).

Definition txidA : string := Repeat "a"%char 64.
Definition txidB : string := Repeat "b"%char 64.
Definition txidC : string := Repeat "c"%char 64.
Definition upperA : string := Repeat "A"%char 64.
Definition upperB : string := Repeat "B"%char 64.

(** A stand-in for the Unicode case tables; the test strings are ASCII. *)
Definition noUnicode (s : string) : string := s.

(** The world of the doubles: the number of direct lookups made so far. *)
Definition World : Type := nat.

Definition background : Context World :=
  {| selectDoneOrTick := fun w => (w, None) |}.

(** A context that is done when the [select] is reached. *)
Definition cancelled : Context World :=
  {| selectDoneOrTick := fun w => (w, Some (errors_New "context canceled")) |}.

Definition zeroOut (o : outKind) : outType o :=
  match o with
  | OutVerbose => zeroVerbose
  | OutStrings => []
  end.

Definition noSuchTx : error :=
  ErrRPC {| Code := -5; Message := "No such mempool or blockchain transaction" |}.

(** [fakeRPC]: [call] answers [getrawtransaction] with the error or the
    reply that [lookup] gives for the number of earlier lookups, and
    [getrawmempool] with [listing]. *)
Definition fakeRPC (lookup : nat -> verboseTx * option error)
  (listing : list string * option error)
  (send : string -> string * option error) : RPC World :=
  {| Call := fun _ method _ o w =>
       if String.eqb method "getrawtransaction" then
         (S w,
          match o return outType o * option error with
          | OutVerbose => lookup w
          | OutStrings => ([], snd (lookup w))
          end)
       else if String.eqb method "getrawmempool" then
         (w,
          match o return outType o * option error with
          | OutVerbose => (zeroVerbose, snd listing)
          | OutStrings => listing
          end)
       else (w, (zeroOut o, Some (errors_New ("unexpected method: " ++ method))));
     SendRawTransaction := fun _ txHex w => (w, send txHex) |}.

Definition sendNotSet (txHex : string) : string * option error :=
  ("", Some (errors_New "fakeRPC: SendRawTransaction not set")).

Definition start : State World := {| world := O; trace := [] |}.

(** The two calls [Status] can make for [txidB]. *)
Definition lookupB : Event :=
  EvCall "getrawtransaction" [AString txidB; AInt 1].

Definition listingCall : Event := EvCall "getrawmempool" [ABool false].

Definition client (r : RPC World) : Client World :=
  {| rpc := r; pollInterval := 500 * Millisecond |}.

(** The double of [TestSubmit_NormalizesTxID]. *)
Definition upperNode : RPC World :=
  fakeRPC (fun _ => (zeroVerbose, Some (errors_New "fakeRPC: Call not set")))
          ([], Some (errors_New "fakeRPC: Call not set"))
          (fun _ => (upperA, None)).

(** The double of [TestStatus_FallbacksToMempool]. *)
Definition unindexedNode : RPC World :=
  fakeRPC (fun _ => (zeroVerbose, Some noSuchTx)) ([upperB], None) sendNotSet.

(** A node that knows nothing of the transaction. *)
Definition emptyNode : RPC World :=
  fakeRPC (fun _ => (zeroVerbose, Some noSuchTx)) ([], None) sendNotSet.

(** A node that refuses the credentials. *)
Definition lockedNode : RPC World :=
  fakeRPC (fun _ => (zeroVerbose,
                     Some (ErrRPC {| Code := -32600; Message := "Unauthorized" |})))
          ([upperB], None) sendNotSet.

(** A transport that fails below the RPC layer, with a message that
    reads like the daemon's. *)
Definition brokenPipe : error := errors_New "proxy: upstream not found".

Definition proxiedNode : RPC World :=
  fakeRPC (fun _ => (zeroVerbose, Some brokenPipe)) ([upperB], None) sendNotSet.

(** A node that reports the transaction in a block that is not on the
    active chain: a block hash with no confirmations. *)
Definition staleReply : verboseTx :=
  {| v_TxID := txidB; v_BlockHash := txidC; v_Confirmations := 0 |}.

Definition staleNode : RPC World :=
  fakeRPC (fun _ => (staleReply, None)) ([], None) sendNotSet.

(** A node that reports a negative confirmation count. *)
Definition conflictedReply : verboseTx :=
  {| v_TxID := txidB; v_BlockHash := ""; v_Confirmations := -1 |}.

Definition conflictedNode : RPC World :=
  fakeRPC (fun _ => (conflictedReply, None)) ([], None) sendNotSet.

(** A node that sees the transaction in its mempool on the first two
    lookups and in a block on the third. *)
Definition minedReply : verboseTx :=
  {| v_TxID := txidB; v_BlockHash := txidC; v_Confirmations := 1 |}.

Definition pendingReply : verboseTx :=
  {| v_TxID := txidB; v_BlockHash := ""; v_Confirmations := 0 |}.

Definition miningNode : RPC World :=
  fakeRPC (fun n => if Nat.ltb n 2 then (pendingReply, None) else (minedReply, None))
          ([], None) sendNotSet.

(** A node that loses its connection at the third lookup. *)
Definition failingNode : RPC World :=
  fakeRPC (fun n => if Nat.ltb n 2 then (pendingReply, None)
                    else (zeroVerbose, Some (errors_New "connection refused")))
          ([], None) sendNotSet.

End Fake.

(** ** More vocabulary, for the properties beyond the specification *)

(** The head of a byte list is no white-space rune, so that [dropSpaces]
    leaves the list alone. *)
Definition stops (two : ascii -> ascii -> bool)
  (three : ascii -> ascii -> ascii -> bool) (l : list ascii) : bool :=
  match l with
  | [] => true
  | c1 :: r1 =>
      (negb (asciiSpace c1)
       && match r1 with
          | [] => true
          | c2 :: r2 =>
              (negb (two c1 c2)
               && match r2 with
                  | [] => true
                  | c3 :: _ => negb (three c1 c2 c3)
                  end)%bool
          end)%bool
  end.

(** No byte of the string is one of 'A'..'Z'. *)
Definition noUpper (s : string) : bool :=
  forallb (fun c => negb (inRange 65 90 c)) (list_ascii_of_string s).

(** What [unicode.ToLower] guarantees of [strings.Map(unicode.ToLower, s)]:
    no rune is mapped to an upper-case ASCII letter. *)
Definition lowersASCII (mapLower : string -> string) : Prop :=
  forall s, noUpper (mapLower s) = true.

(** The ASCII part of the case mapping alone. *)
Definition lowerBytes (s : string) : string :=
  string_of_list_ascii (map lowerByte (list_ascii_of_string s)).

(** The two read-only calls of the package, for a given identifier. *)
Definition lookupOf (id : string) : Event :=
  EvCall "getrawtransaction" [AString id; AInt 1].

Definition listingOf : Event := EvCall "getrawmempool" [ABool false].

(** No positive interval among the values given to [WithPollInterval];
    [None] is a [nil] option. *)
Definition nonePositive (ds : list (option Z)) : Prop :=
  forall d, In (Some d) ds -> d <= 0.

(** The options [WithPollInterval d], with [nil] options among them. *)
Definition intervalOpts {W : Type} (ds : list (option Z))
  : list (option (Option W)) :=
  map (option_map WithPollInterval) ds.

(** ** The command line, [internal/cli/cli.go]

    The callers of the package: [rpcConfigFromFlags], [loadHexInput],
    [writeOK], [writeErr], [defaultFactory], [runSubmit] and [runStatus].
    What the process reads from its surroundings comes in as parameters:
    the environment ([os.Getenv]), the file system ([os.ReadFile],
    [filepath.Base]), [time.ParseDuration], [context.WithTimeout], the
    text of an RPC error, the constructor of the SDK's transport, and the
    outcome of [fs.Parse] on the flag set each command declares.  The two
    writers are logs of the lines written to them; a line of JSON is kept
    as the value that [encoding/json] writes, objects with their fields
    in the order of the output (a struct's fields as declared, a map's
    keys sorted). *)

Module Cli.

#[warnings="-register-all"] Inductive json : Type :=
| JString (s : string)
| JInt (n : Z)
| JBool (b : bool)
| JObject (fields : list (string * json)).

(** A line written to a writer: [fmt.Fprintln] of a string, or a JSON
    value followed by a newline ([Encoder.Encode], or [json.Marshal] and
    [fmt.Fprintln]). *)
Inductive output : Type :=
| Line (s : string)
| JSONLine (v : json).

Inductive writer : Type :=
| Stdout
| Stderr.

Definition jsonVersionV1 : string := "v1".

Definition Second : Z := 1000 * Millisecond.
Definition Minute : Z := 60 * Second.

(** [TxStatus] as its struct tags have it encoded: [blockhash] is left
    out when empty. *)
Definition jsonTxStatus (st : TxStatus) : json :=
  JObject
    ([("txid", JString (TxID st));
      ("in_mempool", JBool (InMempool st));
      ("confirmations", JInt (Confirmations st))]
     ++ (if String.eqb (BlockHash st) "" then []
         else [("blockhash", JString (BlockHash st))]))%list.

(** The parsed flags of [submit] and of [status]. *)
Record submitFlags : Type := {
  sf_rpcURL : string;
  sf_rpcUser : string;
  sf_rpcPass : string;
  sf_rawTxHex : string;
  sf_rawTxFile : string;
  sf_confirmations : Z;
  sf_pollStr : string;
  sf_jsonOut : bool
}.

Record statusFlags : Type := {
  tf_rpcURL : string;
  tf_rpcUser : string;
  tf_rpcPass : string;
  tf_txid : string;
  tf_jsonOut : bool;
  tf_pollStr : string
}.

Section Cli.

Variable W : Type.
Variable mapLower : string -> string.

(** [os.Getenv]. *)
Variable Getenv : string -> string.

(** [os.ReadFile], the bytes as a string, and [filepath.Base]. *)
Variable ReadFile : string -> string * option error.
Variable Base : string -> string.

(** [time.ParseDuration]. *)
Variable ParseDuration : string -> Z * option error.

(** [context.WithTimeout(context.Background(), d)]. *)
Variable WithTimeout : Z -> Context W.

(** The [Error] method of the SDK's RPC error, and [junocashd.New]. *)
Variable rpcErrorText : RPCError -> string.
Variable junocashd_New : string -> string -> string -> RPC W.

(** [fs.Parse(args)] on the flag set of [submit] and of [status]: the
    values of the flag variables afterwards, and the error. *)
Variable parseSubmit : list string -> submitFlags * option error.
Variable parseStatus : list string -> statusFlags * option error.

(** [err.Error()]. *)
Fixpoint ErrorText (err : error) : string :=
  match err with
  | errors_New msg => msg
  | ErrRPC e => rpcErrorText e
  | Errorf_w prefix inner => prefix ++ ErrorText inner
  end.

(** The interface [Runner]; the third method may panic or run on, as
    [WaitForConfirmations] may. *)
Record Runner : Type := {
  rSubmit : Context W -> string -> State W -> State W * (string * option error);
  rStatus : Context W -> string ->
            State W -> State W * (TxStatus * bool * option error);
  rWaitForConfirmations :
    Context W -> string -> Z ->
    State W -> State W * outcome (TxStatus * option error)
}.

(** [*broadcast.Client] as a [Runner]. *)
Definition clientRunner (fuel : nat) (c : Client W) : Runner :=
  {| rSubmit := fun ctx rawTxHex => Submit mapLower c ctx rawTxHex;
     rStatus := fun ctx txid => Status mapLower c ctx txid;
     rWaitForConfirmations := fun ctx txid confirmations =>
       WaitForConfirmations mapLower fuel c ctx txid confirmations |}.

Definition Factory : Type :=
  string -> string -> string -> Z -> option Runner * option error.

(** The process: the machine the runner works on, and the two writers. *)
Record Proc : Type := {
  machine : State W;
  stdout : list output;
  stderr : list output
}.

Definition write (w : writer) (o : output) (p : Proc) : Proc :=
  match w with
  | Stdout =>
      {| machine := machine p; stdout := stdout p ++ [o]; stderr := stderr p |}
  | Stderr =>
      {| machine := machine p; stdout := stdout p; stderr := stderr p ++ [o] |}
  end.

Definition rpcConfigFromFlags (url user pass : string)
  : string * string * string * option error :=
  let url := if String.eqb (TrimSpace url) "" then Getenv "JUNO_RPC_URL" else url in
  let user :=
    if String.eqb (TrimSpace user) "" then Getenv "JUNO_RPC_USER" else user in
  let pass :=
    if String.eqb (TrimSpace pass) "" then Getenv "JUNO_RPC_PASS" else pass in
  let url := TrimSpace url in
  if String.eqb url "" then
    ("", "", "", Some (errors_New "rpc-url is required (or set JUNO_RPC_URL)"))
  else (url, user, pass, None).

Definition loadHexInput (hexValue filePath hexFlagName fileFlagName : string)
  : string * option error :=
  let sources := 0 in
  let sources :=
    if negb (String.eqb (TrimSpace hexValue) "") then sources + 1 else sources in
  let sources :=
    if negb (String.eqb (TrimSpace filePath) "") then sources + 1 else sources in
  if sources =? 0 then
    ("", Some (errors_New (hexFlagName ++ " is required (or use --"
                           ++ fileFlagName ++ ")")))
  else if 1 <? sources then
    ("", Some (errors_New ("input source conflict (use only one of --"
                           ++ hexFlagName ++ ", --" ++ fileFlagName ++ ")")))
  else if negb (String.eqb (TrimSpace hexValue) "") then
    (TrimSpace hexValue, None)
  else
    let path := TrimSpace filePath in
    let '(b, err) := ReadFile path in
    match err with
    | Some err => ("", Some (Errorf_w ("read " ++ Base path ++ ": ") err))
    | None => (TrimSpace b, None)
    end.

Definition writeOK (w : writer) (jsonOut : bool) (payload : json) (p : Proc)
  : Proc * Z :=
  if negb jsonOut then (write w (JSONLine payload) p, 0)
  else
    (write w
       (JSONLine (JObject [("data", payload);
                           ("status", JString "ok");
                           ("version", JString jsonVersionV1)])) p,
     0).

Definition writeErr (stdout stderr : writer) (jsonOut : bool)
  (code msg : string) (p : Proc) : Proc * Z :=
  if jsonOut then
    (write stdout
       (JSONLine (JObject [("error", JObject [("code", JString code);
                                              ("message", JString msg)]);
                           ("status", JString "err");
                           ("version", JString jsonVersionV1)])) p,
     1)
  else
    let msg := if String.eqb msg "" then code else msg in
    (write stderr (Line msg) p, 1).

Definition defaultFactory (fuel : nat) : Factory :=
  fun rpcURL rpcUser rpcPass pollInterval =>
    let r := junocashd_New rpcURL rpcUser rpcPass in
    let '(c, err) := New (Some r) [Some (WithPollInterval pollInterval)] in
    (option_map (clientRunner fuel) c, err).

(** A function that returns its exit code. *)
Definition exits (r : Proc * Z) : Proc * outcome Z :=
  (fst r, Returned (snd r)).

Definition nilRunner : string :=
  "invalid memory address or nil pointer dereference".

Definition runSubmit (args : list string) (factory : Factory) (p : Proc)
  : Proc * outcome Z :=
  let '(fl, err) := parseSubmit args in
  match err with
  | Some err => (write Stderr (Line (ErrorText err)) p, Returned 2)
  | None =>
  let jsonOut := sf_jsonOut fl in
  let confirmations := sf_confirmations fl in
  let '(rpcURL, rpcUser, rpcPass, err) :=
    rpcConfigFromFlags (sf_rpcURL fl) (sf_rpcUser fl) (sf_rpcPass fl) in
  match err with
  | Some err =>
      exits (writeErr Stdout Stderr jsonOut "invalid_request" (ErrorText err) p)
  | None =>
  let '(raw, err) :=
    loadHexInput (sf_rawTxHex fl) (sf_rawTxFile fl) "raw-tx-hex" "raw-tx-file" in
  match err with
  | Some err =>
      exits (writeErr Stdout Stderr jsonOut "invalid_request" (ErrorText err) p)
  | None =>
  let '(poll, err) := ParseDuration (sf_pollStr fl) in
  match err with
  | Some _ =>
      exits (writeErr Stdout Stderr jsonOut "invalid_request"
               "poll must be a duration" p)
  | None =>
  let '(r, err) := factory rpcURL rpcUser rpcPass poll in
  match err with
  | Some err =>
      exits (writeErr Stdout Stderr jsonOut "internal" (ErrorText err) p)
  | None =>
  match r with
  | None => (p, Panicked nilRunner)
  | Some r =>
  let ctx := WithTimeout (2 * Minute) in
  let '(m, (txid, err)) := rSubmit r ctx raw (machine p) in
  let p := {| machine := m; stdout := stdout p; stderr := stderr p |} in
  match err with
  | Some err =>
      exits (writeErr Stdout Stderr jsonOut "node_rpc_error" (ErrorText err) p)
  | None =>
      if 0 <? confirmations then
        let '(m, res) := rWaitForConfirmations r ctx txid confirmations (machine p) in
        let p := {| machine := m; stdout := stdout p; stderr := stderr p |} in
        match res with
        | Panicked msg => (p, Panicked msg)
        | StillPolling => (p, StillPolling)
        | Returned (st, Some err) =>
            exits (writeErr Stdout Stderr jsonOut "node_rpc_error"
                     (ErrorText err) p)
        | Returned (st, None) =>
            exits (writeOK Stdout jsonOut
                     (JObject [("blockhash", JString (BlockHash st));
                               ("confirmations", JInt (Confirmations st));
                               ("in_mempool", JBool (InMempool st));
                               ("required_confs", JInt confirmations);
                               ("txid", JString txid)]) p)
        end
      else if jsonOut then
        exits (writeOK Stdout jsonOut (JObject [("txid", JString txid)]) p)
      else (write Stdout (Line txid) p, Returned 0)
  end end end end end end end.

Definition runStatus (args : list string) (factory : Factory) (p : Proc)
  : Proc * outcome Z :=
  let '(fl, err) := parseStatus args in
  match err with
  | Some err => (write Stderr (Line (ErrorText err)) p, Returned 2)
  | None =>
  let jsonOut := tf_jsonOut fl in
  let '(rpcURL, rpcUser, rpcPass, err) :=
    rpcConfigFromFlags (tf_rpcURL fl) (tf_rpcUser fl) (tf_rpcPass fl) in
  match err with
  | Some err =>
      exits (writeErr Stdout Stderr jsonOut "invalid_request" (ErrorText err) p)
  | None =>
  let txid := TrimSpace (tf_txid fl) in
  if String.eqb txid "" then
    exits (writeErr Stdout Stderr jsonOut "invalid_request" "txid is required" p)
  else
  let '(poll, err) := ParseDuration (tf_pollStr fl) in
  match err with
  | Some _ =>
      exits (writeErr Stdout Stderr jsonOut "invalid_request"
               "poll must be a duration" p)
  | None =>
  let '(r, err) := factory rpcURL rpcUser rpcPass poll in
  match err with
  | Some err =>
      exits (writeErr Stdout Stderr jsonOut "internal" (ErrorText err) p)
  | None =>
  match r with
  | None => (p, Panicked nilRunner)
  | Some r =>
  let ctx := WithTimeout (30 * Second) in
  let '(m, (st, found, err)) := rStatus r ctx txid (machine p) in
  let p := {| machine := m; stdout := stdout p; stderr := stderr p |} in
  match err with
  | Some err =>
      exits (writeErr Stdout Stderr jsonOut "node_rpc_error" (ErrorText err) p)
  | None =>
      if negb found then
        exits (writeErr Stdout Stderr jsonOut "not_found" "unknown txid" p)
      else exits (writeOK Stdout jsonOut (jsonTxStatus st) p)
  end end end end end end.

(** A flag, or the environment variable that stands in for a blank one. *)
Definition flagOrEnv (flag name : string) : string :=
  if String.eqb (TrimSpace flag) "" then Getenv name else flag.

(** One line more on one of the writers, and the other as it was. *)
Definition wroteOneLine (p p' : Proc) : Prop :=
  (exists o, stdout p' = (stdout p ++ [o])%list /\ stderr p' = stderr p)
  \/ (exists o, stderr p' = (stderr p ++ [o])%list /\ stdout p' = stdout p).

End Cli.

Arguments machine {W} p.
Arguments stdout {W} p.
Arguments stderr {W} p.
Arguments rSubmit {W} r ctx rawTxHex s.
Arguments rStatus {W} r ctx txid s.
Arguments rWaitForConfirmations {W} r ctx txid confirmations s.
Arguments write {W} w o p.
Arguments writeOK {W} w jsonOut payload p.
Arguments writeErr {W} stdout stderr jsonOut code msg p.
Arguments exits {W} r.
Arguments wroteOneLine {W} p p'.

End Cli.

(** ** Doubles for the command line *)

Module FakeCli.

(** An environment with the URL set, between spaces, and nothing else. *)
Definition env (name : string) : string :=
  if String.eqb name "JUNO_RPC_URL" then " http://127.0.0.1:8232 " else "".

Definition emptyEnv (name : string) : string := "".

(** A file system with one file, which ends in a newline. *)
Definition files (path : string) : string * option error :=
  if String.eqb path "/tmp/rawtx.hex" then (String "0" (String "0" (String (byte 10) "")), None)
  else ("", Some (errors_New ("open " ++ path ++ ": no such file or directory"))).

Definition baseName (path : string) : string :=
  if String.eqb path "/tmp/rawtx.hex" then "rawtx.hex"
  else if String.eqb path "/tmp/missing.hex" then "missing.hex"
  else path.

Definition durations (s : string) : Z * option error :=
  if String.eqb s "500ms" then (500 * Millisecond, None)
  else (0, Some (errors_New "time: invalid duration")).

Definition timeout (d : Z) : Context Fake.World := Fake.background.

Definition rpcText (e : RPCError) : string := Message e.

Definition submitArgs : Cli.submitFlags :=
  {| Cli.sf_rpcURL := "http://127.0.0.1:8232"; Cli.sf_rpcUser := "";
     Cli.sf_rpcPass := ""; Cli.sf_rawTxHex := " 00 "; Cli.sf_rawTxFile := "";
     Cli.sf_confirmations := -3; Cli.sf_pollStr := "500ms";
     Cli.sf_jsonOut := true |}.

Definition badSubmitArgs : Cli.submitFlags :=
  {| Cli.sf_rpcURL := "http://127.0.0.1:8232"; Cli.sf_rpcUser := "";
     Cli.sf_rpcPass := ""; Cli.sf_rawTxHex := "zz"; Cli.sf_rawTxFile := "";
     Cli.sf_confirmations := 1; Cli.sf_pollStr := "500ms";
     Cli.sf_jsonOut := true |}.

Definition statusArgs (txid : string) : Cli.statusFlags :=
  {| Cli.tf_rpcURL := "http://127.0.0.1:8232"; Cli.tf_rpcUser := "";
     Cli.tf_rpcPass := ""; Cli.tf_txid := txid; Cli.tf_jsonOut := true;
     Cli.tf_pollStr := "500ms" |}.

(** The processes start with nothing written. *)
Definition boot : Cli.Proc Fake.World :=
  {| Cli.machine := Fake.start; Cli.stdout := []; Cli.stderr := [] |}.

(** The runner of [TestRun_Status_NotFound]. *)
Definition unknownRunner : Cli.Runner Fake.World :=
  {| Cli.rSubmit := fun _ _ s => (s, ("", Some (errors_New "not set")));
     Cli.rStatus := fun _ _ s => (s, (zeroTxStatus, false, None));
     Cli.rWaitForConfirmations := fun _ _ _ s =>
       (s, Returned (zeroTxStatus, Some (errors_New "not set"))) |}.

Definition unknownFactory : Cli.Factory Fake.World :=
  fun _ _ _ _ => (Some unknownRunner, None).

(** A node whose direct lookup does not know the transaction and whose
    mempool listing fails. *)
Definition warmingUp : error :=
  ErrRPC {| Code := -28; Message := "Loading block index..." |}.

Definition brokenListingNode : RPC Fake.World :=
  Fake.fakeRPC (fun _ => (zeroVerbose, Some Fake.noSuchTx))
               ([Fake.upperB], Some warmingUp) Fake.sendNotSet.

(** The SDK's constructor, standing in with the node that answers every
    broadcast with 64 'A's. *)
Definition sdk (rpcURL rpcUser rpcPass : string) : RPC Fake.World :=
  Fake.upperNode.

Definition parsedSubmit (fl : Cli.submitFlags) (args : list string)
  : Cli.submitFlags * option error := (fl, None).

Definition parsedStatus (fl : Cli.statusFlags) (args : list string)
  : Cli.statusFlags * option error := (fl, None).

(** The two commands and the default factory in these surroundings. *)
Definition runSubmit (fl : Cli.submitFlags) :=
  Cli.runSubmit Fake.World env files baseName durations timeout rpcText
    (parsedSubmit fl).

Definition runStatus (fl : Cli.statusFlags) :=
  Cli.runStatus Fake.World env durations timeout rpcText (parsedStatus fl).

Definition factory : Cli.Factory Fake.World :=
  Cli.defaultFactory Fake.World Fake.noUnicode sdk 3.

End FakeCli.

(** ** Facts about the Go primitives *)

Section GoFacts.

Lemma fromHexChar_isHexDigit (c : ascii) :
  fromHexChar c = None <-> isHexDigit c = false.
Proof.
  unfold fromHexChar, isHexDigit.
  destruct (inRange 48 57 c), (inRange 97 102 c), (inRange 65 70 c);
    simpl; split; intro H; try reflexivity; discriminate H.
Qed.

(** Strings by pairs of bytes, the way [hex.Decode] reads them. *)
Lemma string_pair_ind (P : string -> Prop) :
  P "" ->
  (forall c, P (String c "")) ->
  (forall c d s, P s -> P (String c (String d s))) ->
  forall s, P s.
Proof.
  intros H0 H1 H2.
  fix IH 1.
  intros [| c [| d s]].
  - exact H0.
  - apply H1.
  - apply H2, IH.
Qed.

(** [hex.DecodeString] succeeds exactly on the valid hexadecimal strings. *)
Lemma DecodeString_validHex (s : string) :
  snd (DecodeString s) = None <-> validHex s = true.
Proof.
  unfold DecodeString, validHex, allHexDigits.
  induction s as [| c | c d s IH] using string_pair_ind.
  - simpl. split; reflexivity.
  - simpl. destruct (fromHexChar c); split; discriminate.
  - change (Decode (String c (String d s))) with
      (match fromHexChar c with
       | None => ([], Some (InvalidByteError c))
       | Some a =>
           match fromHexChar d with
           | None => ([], Some (InvalidByteError d))
           | Some b =>
               let (dst, err) := Decode s in
               (N.lor (N.shiftl a 4) b :: dst, err)
           end
       end).
    change (Nat.even (String.length (String c (String d s))))
      with (Nat.even (String.length s)).
    change (forallb isHexDigit (list_ascii_of_string (String c (String d s))))
      with (isHexDigit c && (isHexDigit d
                             && forallb isHexDigit (list_ascii_of_string s)))%bool.
    destruct (fromHexChar c) as [a |] eqn:Hc.
    + assert (Hc' : isHexDigit c = true).
      { destruct (isHexDigit c) eqn:E; [reflexivity |].
        apply fromHexChar_isHexDigit in E. congruence. }
      rewrite Hc'.
      destruct (fromHexChar d) as [b |] eqn:Hd.
      * assert (Hd' : isHexDigit d = true).
        { destruct (isHexDigit d) eqn:E; [reflexivity |].
          apply fromHexChar_isHexDigit in E. congruence. }
        rewrite Hd'. destruct (Decode s) as [dst err]. simpl in *.
        exact IH.
      * apply fromHexChar_isHexDigit in Hd. rewrite Hd. simpl.
        rewrite Bool.andb_false_r. split; discriminate.
    + apply fromHexChar_isHexDigit in Hc. rewrite Hc. simpl.
      rewrite Bool.andb_false_r. split; discriminate.
Qed.

Lemma DecodeString_invalid (s : string) :
  validHex s = false -> exists e, snd (DecodeString s) = Some e.
Proof.
  intro H. destruct (snd (DecodeString s)) as [e |] eqn:E.
  - exists e. reflexivity.
  - apply DecodeString_validHex in E. congruence.
Qed.

(** The guard on a transaction id passes exactly the strings of 64
    hexadecimal characters. *)
Lemma badTxID_is64Hex (s : string) : badTxID s = negb (is64Hex s).
Proof.
  unfold badTxID, is64Hex, len.
  destruct (snd (DecodeString s)) as [e |] eqn:E.
  - destruct (Nat.eqb (String.length s) 64) eqn:L; [| reflexivity].
    destruct (allHexDigits s) eqn:A; [| reflexivity].
    assert (V : validHex s = true).
    { unfold validHex. apply Nat.eqb_eq in L. rewrite L, A. reflexivity. }
    apply DecodeString_validHex in V. congruence.
  - apply DecodeString_validHex in E. unfold validHex in E.
    apply Bool.andb_true_iff in E. destruct E as [_ A]. rewrite A.
    rewrite Bool.andb_true_r. f_equal.
    destruct (Nat.eqb (String.length s) 64) eqn:L.
    + apply Nat.eqb_eq in L. rewrite L. reflexivity.
    + apply Nat.eqb_neq in L. apply Z.eqb_neq. lia.
Qed.

Lemma As_RPCError_IsOrWraps (e : error) (r : RPCError) :
  As_RPCError e = Some r <-> IsOrWraps e r.
Proof.
  split.
  - induction e as [msg | r' | prefix e IH]; simpl; intro H.
    + discriminate H.
    + injection H as ->. constructor.
    + constructor. apply IH, H.
  - induction 1; simpl; auto.
Qed.

End GoFacts.

(** ** Submit *)

Section SubmitFacts.

Variable W : Type.
Variable mapLower : string -> string.
Variables (c : Client W) (ctx : Context W).

Lemma normalizeHex_accepts (rawTxHex : string) :
  TrimSpace rawTxHex <> "" ->
  validHex (TrimSpace rawTxHex) = true ->
  normalizeHex rawTxHex = (TrimSpace rawTxHex, None).
Proof.
  intros Hne Hhex. unfold normalizeHex.
  destruct (String.eqb (TrimSpace rawTxHex) "") eqn:E.
  - apply String.eqb_eq in E. contradiction.
  - apply DecodeString_validHex in Hhex. rewrite Hhex. reflexivity.
Qed.

Lemma normalizeHex_rejects (rawTxHex : string) :
  TrimSpace rawTxHex = "" \/ validHex (TrimSpace rawTxHex) = false ->
  exists e, InvalidInput e /\ normalizeHex rawTxHex = ("", Some e).
Proof.
  intros H. unfold normalizeHex, InvalidInput.
  destruct (String.eqb (TrimSpace rawTxHex) "") eqn:E.
  - eexists. split; [| reflexivity]. auto.
  - destruct H as [H | H].
    + apply String.eqb_neq in E. contradiction.
    + destruct (DecodeString_invalid _ H) as [e He]. rewrite He.
      eexists. split; [| reflexivity]. auto.
Qed.

(** C6: when the trimmed input is empty or is not valid hexadecimal,
    [Submit] returns an [InvalidInput] error and leaves the machine state
    as it found it: the world is untouched and nothing is added to the
    trace, so no call reached the transport. *)
Theorem Submit_rejects_without_transport_call (rawTxHex : string) (s : State W) :
  TrimSpace rawTxHex = "" \/ validHex (TrimSpace rawTxHex) = false ->
  exists e,
    InvalidInput e
    /\ Submit mapLower c ctx rawTxHex s = (s, ("", Some e)).
Proof.
  intro H. destruct (normalizeHex_rejects _ H) as (e & He & Hn).
  exists e. split; [exact He |].
  unfold Submit. rewrite Hn. reflexivity.
Qed.

(** C8: for non-empty valid hexadecimal input of any letter case,
    [Submit] makes exactly one transport call, [SendRawTransaction] on the
    trimmed input as it was written; the lower-casing is applied to the
    identifier that comes back, which is what a successful [Submit]
    returns. *)
Theorem Submit_forwards_trimmed_input (rawTxHex : string) (s : State W) :
  TrimSpace rawTxHex <> "" ->
  validHex (TrimSpace rawTxHex) = true ->
  fst (Submit mapLower c ctx rawTxHex s)
  = {| world := fst (SendRawTransaction (rpc c) ctx (TrimSpace rawTxHex) (world s));
       trace := trace s ++ [EvSendRawTransaction (TrimSpace rawTxHex)] |}
  /\ forall id,
       snd (Submit mapLower c ctx rawTxHex s) = (id, None) ->
       id = ToLower mapLower
              (TrimSpace
                 (fst (snd (SendRawTransaction (rpc c) ctx
                              (TrimSpace rawTxHex) (world s))))).
Proof.
  intros Hne Hhex. unfold Submit.
  rewrite (normalizeHex_accepts _ Hne Hhex).
  unfold bind, doSendRawTransaction, ret.
  destruct (SendRawTransaction (rpc c) ctx (TrimSpace rawTxHex) (world s))
    as [w [txid [err |]]]; simpl.
  - split; [reflexivity |]. intros id H. discriminate H.
  - destruct (badTxID (ToLower mapLower (TrimSpace txid))); simpl.
    + split; [reflexivity |]. intros id H. discriminate H.
    + split; [reflexivity |]. intros id H. injection H as <-. reflexivity.
Qed.

(** The part of C5 that holds for every reply. *)
Lemma Submit_reply (rawTxHex raw txid : string) (s : State W) (w : W) :
  normalizeHex rawTxHex = (raw, None) ->
  SendRawTransaction (rpc c) ctx raw (world s) = (w, (txid, None)) ->
  snd (Submit mapLower c ctx rawTxHex s)
  = if is64Hex (ToLower mapLower (TrimSpace txid))
    then (ToLower mapLower (TrimSpace txid), None)
    else ("", Some (errors_New "broadcast: node returned invalid txid")).
Proof.
  intros Hn Hs. unfold Submit. rewrite Hn.
  unfold bind, doSendRawTransaction, ret. rewrite Hs.
  rewrite badTxID_is64Hex.
  destruct (is64Hex (ToLower mapLower (TrimSpace txid))); reflexivity.
Qed.

End SubmitFacts.

(** C5: when the transport replies without error, [Submit] trims and
    lower-cases the identifier; it returns the result if that is exactly
    64 hexadecimal characters and fails with the [ProtocolError]
    "node returned invalid txid" otherwise.  In particular, submitting
    "00" to a transport that answers with 64 'A's yields 64 'a's. *)
Theorem Submit_normalizes_returned_txid (mapLower : string -> string) :
  (forall (W : Type) (c : Client W) (ctx : Context W)
          (rawTxHex raw txid : string) (s : State W) (w : W),
      normalizeHex rawTxHex = (raw, None) ->
      SendRawTransaction (rpc c) ctx raw (world s) = (w, (txid, None)) ->
      let id := ToLower mapLower (TrimSpace txid) in
      (is64Hex id = true ->
       snd (Submit mapLower c ctx rawTxHex s) = (id, None))
      /\ (is64Hex id = false ->
          exists e, ProtocolError e
                    /\ snd (Submit mapLower c ctx rawTxHex s) = ("", Some e)))
  /\ snd (Submit mapLower (Fake.client Fake.upperNode) Fake.background "00"
            Fake.start)
     = (Fake.Repeat "a"%char 64, None).
Proof.
  split.
  - intros W c ctx rawTxHex raw txid s w Hn Hs id.
    pose proof (Submit_reply W mapLower c ctx rawTxHex raw txid s w Hn Hs) as R.
    fold id in R. split; intro Hid; rewrite Hid in R.
    + exact R.
    + eexists. split; [reflexivity | exact R].
  - vm_compute. reflexivity.
Qed.

(** ** Status *)

Section StatusFacts.

Variable W : Type.
Variable mapLower : string -> string.
Variables (c : Client W) (ctx : Context W).

Local Abbreviation normalized := (normalized mapLower).
Local Abbreviation lookedUp := (lookedUp mapLower).
Local Abbreviation listed := (listed mapLower).

(** [isNotFoundErr] holds of the errors that are, or wrap, an RPC error
    whose lower-cased message has the not-found phrasing. *)
Lemma isNotFoundErr_spec (e : error) :
  isNotFoundErr mapLower e = true
  <-> exists r, IsOrWraps e r
                /\ notFoundPhrasing (ToLower mapLower (Message r)) = true.
Proof.
  unfold isNotFoundErr. split.
  - destruct (As_RPCError e) as [r |] eqn:E; [| discriminate].
    intro H. exists r. split; [apply As_RPCError_IsOrWraps, E | exact H].
  - intros (r & Hr & Hp). apply As_RPCError_IsOrWraps in Hr.
    rewrite Hr. exact Hp.
Qed.

Lemma isNotFoundErr_false (e : error) :
  (forall r, IsOrWraps e r ->
             notFoundPhrasing (ToLower mapLower (Message r)) = false) ->
  isNotFoundErr mapLower e = false.
Proof.
  intro H. destruct (isNotFoundErr mapLower e) eqn:E; [| reflexivity].
  apply isNotFoundErr_spec in E. destruct E as (r & Hr & Hp).
  rewrite (H r Hr) in Hp. discriminate Hp.
Qed.

Lemma inListing_spec (mempool : list string) (id : string) :
  inListing mapLower mempool id = true
  <-> exists l, In l mempool /\ ToLower mapLower (TrimSpace l) = id.
Proof.
  induction mempool as [| x rest IH]; simpl.
  - split; [discriminate | intros (l & [] & _)].
  - destruct (String.eqb (ToLower mapLower (TrimSpace x)) id) eqn:E.
    + apply String.eqb_eq in E. split; [| reflexivity].
      intros _. exists x. auto.
    + apply String.eqb_neq in E. rewrite IH. split.
      * intros (l & Hin & Hl). exists l. auto.
      * intros (l & [-> | Hin] & Hl); [contradiction |]. exists l. auto.
Qed.

Lemma Status_malformed (txid : string) (s : State W) :
  is64Hex (normalized txid) = false ->
  Status mapLower c ctx txid s
  = (s, (zeroTxStatus, false,
         Some (errors_New "broadcast: txid must be 32-byte hex"))).
Proof.
  intro H. unfold Status. fold (normalized txid).
  rewrite badTxID_is64Hex, H. reflexivity.
Qed.

Lemma Status_direct_hit (txid : string) (s : State W) (w : W) (v : verboseTx) :
  is64Hex (normalized txid) = true ->
  Call (rpc c) ctx "getrawtransaction" [AString (normalized txid); AInt 1]
       OutVerbose (world s) = (w, (v, None)) ->
  Status mapLower c ctx txid s
  = (lookedUp txid s w,
     ({| TxID := normalized txid;
         InMempool := (v_Confirmations v =? 0) && String.eqb (v_BlockHash v) "";
         Confirmations := v_Confirmations v;
         BlockHash := TrimSpace (v_BlockHash v) |}, true, None)).
Proof.
  intros H Hc. unfold Status. fold (normalized txid).
  rewrite badTxID_is64Hex, H. simpl.
  unfold bind, doCall. rewrite Hc. reflexivity.
Qed.

Lemma Status_direct_failure (txid : string) (s : State W) (w : W)
  (v : verboseTx) (e : error) :
  is64Hex (normalized txid) = true ->
  Call (rpc c) ctx "getrawtransaction" [AString (normalized txid); AInt 1]
       OutVerbose (world s) = (w, (v, Some e)) ->
  isNotFoundErr mapLower e = false ->
  Status mapLower c ctx txid s = (lookedUp txid s w, (zeroTxStatus, false, Some e)).
Proof.
  intros H Hc He. unfold Status. fold (normalized txid).
  rewrite badTxID_is64Hex, H. simpl.
  unfold bind, doCall. rewrite Hc, He. reflexivity.
Qed.

Lemma Status_fallback (txid : string) (s : State W) (w w' : W)
  (v : verboseTx) (e : error) (mempool : list string) (err : option error) :
  is64Hex (normalized txid) = true ->
  Call (rpc c) ctx "getrawtransaction" [AString (normalized txid); AInt 1]
       OutVerbose (world s) = (w, (v, Some e)) ->
  isNotFoundErr mapLower e = true ->
  Call (rpc c) ctx "getrawmempool" [ABool false] OutStrings w
  = (w', (mempool, err)) ->
  Status mapLower c ctx txid s
  = (listed txid s w',
     match err with
     | Some err =>
         (zeroTxStatus, false, Some (Errorf_w "broadcast: getrawmempool: " err))
     | None =>
         if inListing mapLower mempool (normalized txid) then
           ({| TxID := normalized txid; InMempool := true;
               Confirmations := 0; BlockHash := "" |}, true, None)
         else (zeroTxStatus, false, None)
     end).
Proof.
  intros H Hc He Hm. unfold Status. fold (normalized txid).
  rewrite badTxID_is64Hex, H. simpl.
  unfold bind, doCall. rewrite Hc, He. simpl. rewrite Hm.
  unfold listed. rewrite <- app_assoc. simpl.
  destruct err; [reflexivity |].
  destruct (inListing mapLower mempool (normalized txid)); reflexivity.
Qed.

(** C1: for an identifier of 64 hexadecimal characters whose direct
    lookup fails with an error that is, or wraps, an RPC error with the
    not-found phrasing in its lower-cased message, [Status] goes on to ask
    for the mempool listing.  If some listed id, trimmed and lower-cased,
    is the normalized identifier, the result is the status with
    [InMempool = true], no confirmations and no block hash, and
    [found = true]; if none is, the result is the empty status,
    [found = false] and no error. *)
Theorem Status_fallback_to_mempool (txid : string) (s : State W) (w w' : W)
  (v : verboseTx) (e : error) (r : RPCError) (mempool : list string) :
  is64Hex (normalized txid) = true ->
  Call (rpc c) ctx "getrawtransaction" [AString (normalized txid); AInt 1]
       OutVerbose (world s) = (w, (v, Some e)) ->
  IsOrWraps e r ->
  notFoundPhrasing (ToLower mapLower (Message r)) = true ->
  Call (rpc c) ctx "getrawmempool" [ABool false] OutStrings w
  = (w', (mempool, None)) ->
  ((exists l, In l mempool /\ ToLower mapLower (TrimSpace l) = normalized txid) ->
   Status mapLower c ctx txid s
   = ({| world := w';
         trace := trace s
                  ++ [EvCall "getrawtransaction" [AString (normalized txid); AInt 1];
                      EvCall "getrawmempool" [ABool false]] |},
      ({| TxID := normalized txid; InMempool := true;
          Confirmations := 0; BlockHash := "" |}, true, None)))
  /\ ((forall l, In l mempool -> ToLower mapLower (TrimSpace l) <> normalized txid) ->
      Status mapLower c ctx txid s
      = ({| world := w';
            trace := trace s
                     ++ [EvCall "getrawtransaction" [AString (normalized txid); AInt 1];
                         EvCall "getrawmempool" [ABool false]] |},
         (zeroTxStatus, false, None))).
Proof.
  intros H Hc Hr Hp Hm.
  assert (He : isNotFoundErr mapLower e = true).
  { apply isNotFoundErr_spec. exists r. auto. }
  rewrite (Status_fallback txid s w w' v e mempool None H Hc He Hm).
  split; intro Hl.
  - apply inListing_spec in Hl. rewrite Hl. reflexivity.
  - destruct (inListing mapLower mempool (normalized txid)) eqn:E; [| reflexivity].
    apply inListing_spec in E. destruct E as (l & Hin & Heq).
    exfalso. exact (Hl l Hin Heq).
Qed.

(** C2: for an identifier of 64 hexadecimal characters whose direct
    lookup fails with an error that does not match the not-found phrasing
    (no RPC error that it is or wraps has a lower-cased message with that
    phrasing), [Status] returns that very error at once: the state it
    leaves is the one after the direct lookup, whose trace has gained that
    one call and no [getrawmempool]. *)
Theorem Status_other_error_short_circuits (txid : string) (s : State W) (w : W)
  (v : verboseTx) (e : error) :
  is64Hex (normalized txid) = true ->
  Call (rpc c) ctx "getrawtransaction" [AString (normalized txid); AInt 1]
       OutVerbose (world s) = (w, (v, Some e)) ->
  (forall r, IsOrWraps e r ->
             notFoundPhrasing (ToLower mapLower (Message r)) = false) ->
  Status mapLower c ctx txid s
  = ({| world := w;
        trace := trace s
                 ++ [EvCall "getrawtransaction"
                       [AString (normalized txid); AInt 1]] |},
     (zeroTxStatus, false, Some e)).
Proof.
  intros H Hc He.
  exact (Status_direct_failure txid s w v e H Hc (isNotFoundErr_false e He)).
Qed.

(** C3: for an identifier of 64 hexadecimal characters whose direct
    lookup succeeds, [Status] returns [found = true] and a status whose
    confirmations are the reported ones and whose [InMempool] is computed:
    it is true exactly when the reported confirmations are 0 and the
    reported block hash is empty. *)
Theorem Status_direct_lookup_derives_InMempool (txid : string) (s : State W)
  (w : W) (v : verboseTx) :
  is64Hex (normalized txid) = true ->
  Call (rpc c) ctx "getrawtransaction" [AString (normalized txid); AInt 1]
       OutVerbose (world s) = (w, (v, None)) ->
  exists st,
    snd (Status mapLower c ctx txid s) = (st, true, None)
    /\ (InMempool st = true <-> v_Confirmations v = 0 /\ v_BlockHash v = "")
    /\ TxID st = normalized txid
    /\ Confirmations st = v_Confirmations v
    /\ BlockHash st = TrimSpace (v_BlockHash v).
Proof.
  intros H Hc. rewrite (Status_direct_hit txid s w v H Hc).
  eexists. split; [reflexivity |]. simpl.
  split; [| auto].
  rewrite Bool.andb_true_iff, Z.eqb_eq, String.eqb_eq. reflexivity.
Qed.

(** C10: [isNotFoundErr] holds only of an error that is, or wraps, a
    [*junocashd.RPCError]; when the direct lookup fails with an error
    that neither is nor wraps one, [Status] returns it after that single
    call, whatever its message says. *)
Theorem Status_fallback_needs_RPCError :
  (forall e, isNotFoundErr mapLower e = true -> exists r, IsOrWraps e r)
  /\ (forall (txid : string) (s : State W) (w : W) (v : verboseTx) (e : error),
        is64Hex (normalized txid) = true ->
        Call (rpc c) ctx "getrawtransaction" [AString (normalized txid); AInt 1]
             OutVerbose (world s) = (w, (v, Some e)) ->
        (forall r, ~ IsOrWraps e r) ->
        Status mapLower c ctx txid s
        = ({| world := w;
              trace := trace s
                       ++ [EvCall "getrawtransaction"
                             [AString (normalized txid); AInt 1]] |},
           (zeroTxStatus, false, Some e))).
Proof.
  split.
  - intros e He. apply isNotFoundErr_spec in He.
    destruct He as (r & Hr & _). exists r. exact Hr.
  - intros txid s w v e H Hc Hn.
    apply (Status_direct_failure txid s w v e H Hc).
    apply isNotFoundErr_false. intros r Hr. exfalso. exact (Hn r Hr).
Qed.

End StatusFacts.


(** C7, as amended: every status that [Status] returns with
    [found = true] has no confirmations and no block hash whenever
    [InMempool] is set.  A status that comes from a successful direct
    lookup carries the reply unchecked: its confirmations are the reply's
    and its block hash is the reply's, trimmed; so it satisfies the
    data-model invariant exactly when the reply has confirmations that
    are not negative and a block hash that is not blank only together
    with at least one confirmation.  A status that comes from the mempool
    listing satisfies the invariant.  A status returned by
    [WaitForConfirmations] likewise has no confirmations and no block
    hash whenever [InMempool] is set. *)
Theorem found_status_invariant (W : Type) (mapLower : string -> string)
  (c : Client W) (ctx : Context W) (txid : string) :
  (forall (s s' : State W) (st : TxStatus),
      Status mapLower c ctx txid s = (s', (st, true, None)) ->
      (InMempool st = true -> Confirmations st = 0 /\ BlockHash st = "")
      /\ (forall w v,
             Call (rpc c) ctx "getrawtransaction"
                  [AString (normalized mapLower txid); AInt 1] OutVerbose (world s)
             = (w, (v, None)) ->
             Confirmations st = v_Confirmations v
             /\ BlockHash st = TrimSpace (v_BlockHash v)
             /\ (statusInvariant st <-> replyInvariant v))
      /\ (forall w v e,
             Call (rpc c) ctx "getrawtransaction"
                  [AString (normalized mapLower txid); AInt 1] OutVerbose (world s)
             = (w, (v, Some e)) ->
             statusInvariant st))
  /\ (forall (fuel : nat) (confirmations : Z) (s s' : State W) (st : TxStatus),
        WaitForConfirmations mapLower fuel c ctx txid confirmations s
        = (s', Returned (st, None)) ->
        InMempool st = true -> Confirmations st = 0 /\ BlockHash st = "").
Proof.
  assert (A : forall (s s' : State W) (st : TxStatus),
             Status mapLower c ctx txid s = (s', (st, true, None)) ->
             (InMempool st = true -> Confirmations st = 0 /\ BlockHash st = "")
             /\ (forall w v,
                    Call (rpc c) ctx "getrawtransaction"
                         [AString (normalized mapLower txid); AInt 1] OutVerbose
                         (world s) = (w, (v, None)) ->
                    Confirmations st = v_Confirmations v
                    /\ BlockHash st = TrimSpace (v_BlockHash v)
                    /\ (statusInvariant st <-> replyInvariant v))
             /\ (forall w v e,
                    Call (rpc c) ctx "getrawtransaction"
                         [AString (normalized mapLower txid); AInt 1] OutVerbose
                         (world s) = (w, (v, Some e)) ->
                    statusInvariant st)).
  { intros s s' st H.
    destruct (is64Hex (normalized mapLower txid)) eqn:Hid.
    2:{ rewrite (Status_malformed W mapLower c ctx txid s Hid) in H. discriminate H. }
    destruct (Call (rpc c) ctx "getrawtransaction"
                [AString (normalized mapLower txid); AInt 1] OutVerbose (world s))
      as [w [v [e |]]] eqn:Hc.
    - destruct (isNotFoundErr mapLower e) eqn:He.
      + destruct (Call (rpc c) ctx "getrawmempool" [ABool false] OutStrings w)
          as [w' [mempool err]] eqn:Hm.
        rewrite (Status_fallback W mapLower c ctx txid s w w' v e mempool err
                   Hid Hc He Hm) in H.
        destruct err as [err |]; [discriminate H |].
        destruct (inListing mapLower mempool (normalized mapLower txid));
          [| discriminate H].
        injection H as _ <-. unfold statusInvariant. simpl.
        split; [auto |]. split.
        * intros w0 v0 F. discriminate F.
        * intros _ _ _ _. repeat split; auto; try lia.
          intro F. contradiction F. reflexivity.
      + rewrite (Status_direct_failure W mapLower c ctx txid s w v e Hid Hc He) in H.
        discriminate H.
    - rewrite (Status_direct_hit W mapLower c ctx txid s w v Hid Hc) in H.
      injection H as _ <-. unfold statusInvariant, replyInvariant. simpl.
      split; [| split].
      + intro E. apply Bool.andb_true_iff in E. destruct E as [E1 E2].
        apply Z.eqb_eq in E1. apply String.eqb_eq in E2.
        rewrite E1, E2. split; reflexivity.
      + intros w0 v0 F. injection F as _ <-.
        split; [reflexivity |]. split; [reflexivity |]. split.
        * intros (_ & R2 & R1). auto.
        * intros [R1 R2]. repeat split; auto.
          intro E. apply Bool.andb_true_iff in E. destruct E as [E1 _].
          apply Z.eqb_eq in E1. exact E1.
      + intros w0 v0 e F. discriminate F. }
  split; [exact A |].
  intros fuel confirmations s s' st H.
  unfold WaitForConfirmations in H.
  destruct (confirmations <? 0); [discriminate H |].
  destruct (pollInterval c <=? 0); [discriminate H |].
  revert s H. induction fuel as [| fuel IH]; intros s H.
  - discriminate H.
  - simpl in H. unfold bind in H.
    destruct (Status mapLower c ctx txid s) as [s1 [[st1 found] [e |]]] eqn:HS.
    + discriminate H.
    + destruct (found && ((confirmations =? 0) || (confirmations <=? Confirmations st1)))%bool
        eqn:T.
      * injection H as _ <-.
        apply Bool.andb_true_iff in T. destruct T as [-> _].
        exact (proj1 (A s s1 st1 HS)).
      * destruct (doSelect ctx s1) as [s2 [ce |]]; [discriminate H |].
        exact (IH s2 H).
Qed.

(** C7, as stated, fails: a node that reports the transaction in a block
    off the active chain (a block hash, no confirmations) makes [Status]
    return a found status with a block hash and no confirmations, and a
    node that reports a negative count makes it return that count. *)
Lemma found_status_may_break_invariant :
  (snd (Status Fake.noUnicode (Fake.client Fake.staleNode) Fake.background
          Fake.txidB Fake.start)
   = ({| TxID := Fake.txidB; InMempool := false; Confirmations := 0;
         BlockHash := Fake.txidC |}, true, None)
   /\ ~ statusInvariant
        {| TxID := Fake.txidB; InMempool := false; Confirmations := 0;
           BlockHash := Fake.txidC |})
  /\ (snd (Status Fake.noUnicode (Fake.client Fake.conflictedNode) Fake.background
             Fake.txidB Fake.start)
      = ({| TxID := Fake.txidB; InMempool := false; Confirmations := -1;
            BlockHash := "" |}, true, None)
      /\ ~ statusInvariant
           {| TxID := Fake.txidB; InMempool := false; Confirmations := -1;
              BlockHash := "" |}).
Proof.
  split; split.
  - vm_compute. reflexivity.
  - intros (_ & H & _). simpl in H.
    assert (F : Fake.txidC <> "") by (vm_compute; discriminate).
    specialize (H F). lia.
  - vm_compute. reflexivity.
  - intros (_ & _ & H). simpl in H. lia.
Qed.

(** ** New *)

(** C9: [New] fails, with the [ConfigError] "rpc is nil", exactly when it
    is given no transport.  [WithPollInterval] of a value that is not
    positive leaves the client as it was, so such an option can be dropped
    from the list without changing what [New] returns, and on its own it
    leaves the 500 ms default in place. *)
Theorem New_fails_only_on_nil_transport (W : Type) :
  (forall (r : option (RPC W)) (opts : list (option (Option W))),
      (r = None ->
       exists e, ConfigError e /\ New r opts = (None, Some e))
      /\ (r <> None -> exists c, New r opts = (Some c, None)))
  /\ (forall (d : Z) (c : Client W), d <= 0 -> WithPollInterval d c = c)
  /\ (forall (r : option (RPC W)) (d : Z) (before after : list (option (Option W))),
        d <= 0 ->
        New r (before ++ Some (WithPollInterval d) :: after)
        = New r (before ++ after))
  /\ (forall (r : RPC W) (d : Z),
        d <= 0 ->
        New (Some r) [Some (WithPollInterval d)]
        = (Some {| rpc := r; pollInterval := 500000000 |}, None)).
Proof.
  assert (Ign : forall (d : Z) (c : Client W), d <= 0 -> WithPollInterval d c = c).
  { intros d c Hd. unfold WithPollInterval.
    destruct (0 <? d) eqn:E; [| reflexivity].
    apply Z.ltb_lt in E. lia. }
  assert (Drop : forall (d : Z) (before after : list (option (Option W))) (c : Client W),
             d <= 0 ->
             applyOpts (before ++ Some (WithPollInterval d) :: after) c
             = applyOpts (before ++ after) c).
  { intros d before after c Hd. revert c.
    induction before as [| [opt |] before IH]; intro c; simpl.
    - rewrite (Ign d c Hd). reflexivity.
    - apply IH.
    - apply IH. }
  repeat split.
  - intros ->. eexists. split; reflexivity.
  - intro H. destruct r as [r |]; [| contradiction].
    eexists. reflexivity.
  - exact Ign.
  - intros [r |] d before after Hd; simpl; [| reflexivity].
    rewrite (Drop d before after _ Hd). reflexivity.
  - intros r d Hd. simpl. rewrite (Ign d _ Hd). reflexivity.
Qed.

(** A client made by [New] from [WithPollInterval] options has a positive
    poll interval, which is what [time.NewTicker] needs. *)
Lemma applyOpts_pollInterval_positive (W : Type) (ds : list Z) (c : Client W) :
  0 < pollInterval c ->
  0 < pollInterval
        (applyOpts (map (fun d => Some (WithPollInterval d)) ds) c).
Proof.
  revert c. induction ds as [| d ds IH]; intros c Hc; simpl.
  - exact Hc.
  - apply IH. unfold WithPollInterval.
    destruct (0 <? d) eqn:E; [| exact Hc].
    apply Z.ltb_lt in E. exact E.
Qed.

Lemma New_pollInterval_positive (W : Type) (r : RPC W) (ds : list Z) (c : Client W) :
  New (Some r) (map (fun d => Some (WithPollInterval d)) ds) = (Some c, None) ->
  0 < pollInterval c.
Proof.
  simpl. intro H. injection H as <-.
  apply applyOpts_pollInterval_positive. reflexivity.
Qed.

(** ** WaitForConfirmations *)

Section WaitFacts.

Variable W : Type.
Variable mapLower : string -> string.
Variables (c : Client W) (ctx : Context W) (txid : string).
Variable confirmations : Z.

Local Abbreviation going := (goesOn mapLower c ctx txid confirmations).
Local Abbreviation loop :=
  (fun fuel => pollLoop mapLower fuel c ctx txid confirmations).

Lemma reached_spec (st : TxStatus) (found : bool) :
  reached confirmations (st, found, None) = true
  <-> found = true /\ (confirmations = 0 \/ confirmations <= Confirmations st).
Proof.
  unfold reached.
  rewrite Bool.andb_true_iff, Bool.orb_true_iff, Z.eqb_eq, Z.leb_le.
  reflexivity.
Qed.

Lemma pollLoop_target (fuel : nat) (s s' : State W) (st : TxStatus) (found : bool) :
  Status mapLower c ctx txid s = (s', (st, found, None)) ->
  reached confirmations (st, found, None) = true ->
  loop (S fuel) s = (s', Returned (st, None)).
Proof.
  intros HS HR. simpl. unfold bind. rewrite HS.
  unfold reached in HR. rewrite HR. reflexivity.
Qed.

Lemma pollLoop_failure (fuel : nat) (s s' : State W) (st : TxStatus)
  (found : bool) (e : error) :
  Status mapLower c ctx txid s = (s', (st, found, Some e)) ->
  loop (S fuel) s = (s', Returned (zeroTxStatus, Some e)).
Proof.
  intros HS. simpl. unfold bind. rewrite HS. reflexivity.
Qed.

Lemma pollLoop_round (fuel : nat) (s : State W) :
  going O s = true ->
  loop (S fuel) s = loop fuel (afterRound mapLower c ctx txid s).
Proof.
  unfold goesOn, poll, afterRound. simpl.
  unfold bind.
  destruct (Status mapLower c ctx txid s) as [s1 [[st found] [e |]]];
    [discriminate |].
  intro H. apply Bool.andb_true_iff in H. destruct H as [H1 H2].
  apply Bool.negb_true_iff in H1. unfold reached in H1. rewrite H1.
  simpl. destruct (doSelect ctx s1) as [s2 [ce |]]; [discriminate H2 |].
  reflexivity.
Qed.

(** Following the loop through [k] rounds that go on. *)
Lemma pollLoop_rounds (k fuel : nat) (s : State W) :
  (forall j, (j < k)%nat -> going j s = true) ->
  loop (k + fuel)%nat s = loop fuel (pollState mapLower c ctx txid k s).
Proof.
  revert s. induction k as [| k IH]; intros s H.
  - reflexivity.
  - change (S k + fuel)%nat with (S (k + fuel)).
    rewrite pollLoop_round by (apply (H O); lia).
    rewrite IH; [reflexivity |].
    intros j Hj. apply (H (S j)). lia.
Qed.

(** What a successful return of the loop came from. *)
Lemma pollLoop_returned (fuel : nat) (s s' : State W) (st : TxStatus) :
  loop fuel s = (s', Returned (st, None)) ->
  exists k,
    (k < fuel)%nat
    /\ (forall j, (j < k)%nat -> going j s = true)
    /\ poll mapLower c ctx txid k s = (s', (st, true, None))
    /\ (confirmations = 0 \/ confirmations <= Confirmations st).
Proof.
  revert s. induction fuel as [| fuel IH]; intros s H.
  - discriminate H.
  - simpl in H. unfold bind in H.
    destruct (Status mapLower c ctx txid s) as [s1 [[st1 found] [e |]]] eqn:HS;
      [discriminate H |].
    destruct (found && ((confirmations =? 0) || (confirmations <=? Confirmations st1)))%bool
      eqn:T.
    + injection H as <- <-. exists O.
      assert (R : reached confirmations (st1, found, None) = true) by exact T.
      apply reached_spec in R. destruct R as [-> R].
      repeat split; [lia | intros j Hj; lia | exact HS | exact R].
    + destruct (doSelect ctx s1) as [s2 [ce |]] eqn:HD; [discriminate H |].
      assert (A : afterRound mapLower c ctx txid s = s2).
      { unfold afterRound. rewrite HS. simpl. rewrite HD. reflexivity. }
      destruct (IH s2 H) as (k & Hk & Hon & Hp & Ht).
      exists (S k). repeat split; [lia | | | exact Ht].
      * intros [| j] Hj.
        -- unfold goesOn, poll. simpl. rewrite HS.
           unfold reached. rewrite T, HD. reflexivity.
        -- unfold goesOn, poll. simpl. rewrite A.
           apply (Hon j). lia.
      * unfold poll. simpl. rewrite A. exact Hp.
Qed.

End WaitFacts.

(** C4: [WaitForConfirmations] with a negative target returns an
    [InvalidInput] error and leaves the state untouched (no transport
    call).  With a target that is not negative (and a client whose poll
    interval is positive, as [New] makes them), if every poll before
    number [k] returned no error, missed the target and was followed by a
    tick, then: if poll [k] returns a found status with the target 0 or
    with at least the target's confirmations, that status is returned, in
    the state that poll left; and if poll [k] returns an error, that error
    is returned, in the state that poll left, so that nothing is polled
    after it.  The model needs more than [k] units of fuel for that.
    Conversely, a status returned without error is that of the first poll
    that reached the target. *)
Theorem WaitForConfirmations_contract (W : Type) (mapLower : string -> string)
  (c : Client W) (ctx : Context W) (txid : string) (confirmations : Z) :
  (confirmations < 0 ->
   forall (fuel : nat) (s : State W),
   exists e,
     InvalidInput e
     /\ WaitForConfirmations mapLower fuel c ctx txid confirmations s
        = (s, Returned (zeroTxStatus, Some e)))
  /\ (0 <= confirmations ->
      0 < pollInterval c ->
      forall (k fuel : nat) (s : State W),
        (forall j, (j < k)%nat ->
                   goesOn mapLower c ctx txid confirmations j s = true) ->
        (k < fuel)%nat ->
        (forall s' st,
            poll mapLower c ctx txid k s = (s', (st, true, None)) ->
            confirmations = 0 \/ confirmations <= Confirmations st ->
            WaitForConfirmations mapLower fuel c ctx txid confirmations s
            = (s', Returned (st, None)))
        /\ (forall s' st found e,
              poll mapLower c ctx txid k s = (s', (st, found, Some e)) ->
              WaitForConfirmations mapLower fuel c ctx txid confirmations s
              = (s', Returned (zeroTxStatus, Some e))))
  /\ (forall (fuel : nat) (s s' : State W) (st : TxStatus),
        WaitForConfirmations mapLower fuel c ctx txid confirmations s
        = (s', Returned (st, None)) ->
        exists k,
          (k < fuel)%nat
          /\ (forall j, (j < k)%nat ->
                         goesOn mapLower c ctx txid confirmations j s = true)
          /\ poll mapLower c ctx txid k s = (s', (st, true, None))
          /\ (confirmations = 0 \/ confirmations <= Confirmations st)).
Proof.
  split; [| split].
  3:{ intros fuel s s' st H. unfold WaitForConfirmations in H.
      destruct (confirmations <? 0); [discriminate H |].
      destruct (pollInterval c <=? 0); [discriminate H |].
      exact (pollLoop_returned W mapLower c ctx txid confirmations fuel s s' st H). }
  - intros Hneg fuel s. unfold WaitForConfirmations.
    apply Z.ltb_lt in Hneg. rewrite Hneg.
    eexists. split; [| reflexivity]. unfold InvalidInput. auto.
  - intros Hpos Hint k fuel s Hon Hk.
    unfold WaitForConfirmations.
    apply Z.ltb_ge in Hpos. rewrite Hpos.
    assert (Hi : (pollInterval c <=? 0) = false) by (apply Z.leb_gt; exact Hint).
    rewrite Hi.
    assert (Hf : fuel = (k + S (fuel - S k))%nat) by lia.
    rewrite Hf.
    rewrite (pollLoop_rounds W mapLower c ctx txid confirmations k _ s Hon).
    unfold poll. split.
    + intros s' st HS HT.
      apply (pollLoop_target W mapLower c ctx txid confirmations _ _ s' st true HS).
      apply reached_spec. auto.
    + intros s' st found e HS.
      exact (pollLoop_failure W mapLower c ctx txid confirmations _ _ s' st found e HS).
Qed.

(** ** The theorems at work on the test doubles *)

Import Fake.

(** [TestStatus_FallbacksToMempool], and the same for a node whose
    mempool is empty. *)
Lemma Status_fallback_to_mempool_witness :
  Status noUnicode (client unindexedNode) background txidB start
  = ({| world := 1%nat; trace := [lookupB; listingCall] |},
     ({| TxID := txidB; InMempool := true; Confirmations := 0; BlockHash := "" |},
      true, None))
  /\ Status noUnicode (client emptyNode) background txidB start
     = ({| world := 1%nat; trace := [lookupB; listingCall] |},
        (zeroTxStatus, false, None)).
Proof.
  split.
  - refine (proj1 (Status_fallback_to_mempool World noUnicode
                     (client unindexedNode) background txidB start 1%nat 1%nat
                     zeroVerbose noSuchTx
                     {| Code := -5;
                        Message := "No such mempool or blockchain transaction" |}
                     [upperB] _ _ _ _ _) _).
    + vm_compute. reflexivity.
    + reflexivity.
    + constructor.
    + vm_compute. reflexivity.
    + reflexivity.
    + exists upperB. split; [left; reflexivity | vm_compute; reflexivity].
  - refine (proj2 (Status_fallback_to_mempool World noUnicode
                     (client emptyNode) background txidB start 1%nat 1%nat
                     zeroVerbose noSuchTx
                     {| Code := -5;
                        Message := "No such mempool or blockchain transaction" |}
                     [] _ _ _ _ _) _).
    + vm_compute. reflexivity.
    + reflexivity.
    + constructor.
    + vm_compute. reflexivity.
    + reflexivity.
    + intros l [].
Defined.

(** A node that refuses the credentials: the refusal comes back, and the
    listing, which has the transaction, is not asked for. *)
Lemma Status_other_error_short_circuits_witness :
  Status noUnicode (client lockedNode) background txidB start
  = ({| world := 1%nat; trace := [lookupB] |},
     (zeroTxStatus, false,
      Some (ErrRPC {| Code := -32600; Message := "Unauthorized" |}))).
Proof.
  refine (Status_other_error_short_circuits World noUnicode
            (client lockedNode) background txidB start 1%nat zeroVerbose
            (ErrRPC {| Code := -32600; Message := "Unauthorized" |}) _ _ _).
  - vm_compute. reflexivity.
  - reflexivity.
  - intros r Hr. inversion Hr; subst. vm_compute. reflexivity.
Defined.

(** A direct lookup that succeeds, for a pending and for a mined
    transaction. *)
Lemma Status_direct_lookup_derives_InMempool_witness :
  (exists st,
      snd (Status noUnicode (client miningNode) background txidB start)
      = (st, true, None)
      /\ (InMempool st = true <-> 0 = 0 /\ "" = "")
      /\ TxID st = normalized noUnicode txidB
      /\ Confirmations st = 0
      /\ BlockHash st = TrimSpace "")
  /\ (exists st,
         snd (Status noUnicode (client miningNode) background txidB
                {| world := 2%nat; trace := [] |})
         = (st, true, None)
         /\ (InMempool st = true <-> 1 = 0 /\ txidC = "")
         /\ TxID st = normalized noUnicode txidB
         /\ Confirmations st = 1
         /\ BlockHash st = TrimSpace txidC).
Proof.
  split.
  - refine (Status_direct_lookup_derives_InMempool World noUnicode
              (client miningNode) background txidB start 1%nat pendingReply _ _).
    + vm_compute. reflexivity.
    + reflexivity.
  - refine (Status_direct_lookup_derives_InMempool World noUnicode
              (client miningNode) background txidB
              {| world := 2%nat; trace := [] |} 3%nat minedReply _ _).
    + vm_compute. reflexivity.
    + reflexivity.
Defined.

(** A transport error that is no RPC error, though it reads like one. *)
Lemma Status_fallback_needs_RPCError_witness :
  notFoundPhrasing (ToLower noUnicode "proxy: upstream not found") = true
  /\ Status noUnicode (client proxiedNode) background txidB start
     = ({| world := 1%nat; trace := [lookupB] |},
        (zeroTxStatus, false, Some brokenPipe)).
Proof.
  split.
  - vm_compute. reflexivity.
  - refine (proj2 (Status_fallback_needs_RPCError World noUnicode
                     (client proxiedNode) background)
                  txidB start 1%nat zeroVerbose brokenPipe _ _ _).
    + vm_compute. reflexivity.
    + reflexivity.
    + intros r Hr. inversion Hr.
Defined.

(** [TestSubmit_ValidatesInputHex]. *)
Lemma Submit_rejects_without_transport_call_witness :
  (exists e,
      InvalidInput e
      /\ Submit noUnicode (client upperNode) background "" start
         = (start, ("", Some e)))
  /\ (exists e,
         InvalidInput e
         /\ Submit noUnicode (client upperNode) background "zz" start
            = (start, ("", Some e))).
Proof.
  split.
  - apply (Submit_rejects_without_transport_call World noUnicode
             (client upperNode) background "" start).
    left. reflexivity.
  - apply (Submit_rejects_without_transport_call World noUnicode
             (client upperNode) background "zz" start).
    right. reflexivity.
Defined.

(** Mixed-case input between spaces goes out trimmed, in its own case. *)
Lemma Submit_forwards_trimmed_input_witness :
  fst (Submit noUnicode (client upperNode) background "  AbCd  " start)
  = {| world := O; trace := [EvSendRawTransaction "AbCd"] |}.
Proof.
  refine (proj1 (Submit_forwards_trimmed_input World noUnicode
                   (client upperNode) background "  AbCd  " start _ _)).
  - vm_compute. discriminate.
  - reflexivity.
Defined.

(** [TestSubmit_NormalizesTxID] and [TestSubmit_ValidatesTxID]. *)
Lemma Submit_normalizes_returned_txid_witness :
  snd (Submit noUnicode (client upperNode) background "00" start) = (txidA, None)
  /\ exists e,
       ProtocolError e
       /\ snd (Submit noUnicode
                 (client (fakeRPC (fun _ => (zeroVerbose, None)) ([], None)
                            (fun _ => ("bad", None))))
                 background "00" start) = ("", Some e).
Proof.
  split.
  - refine (proj1 (proj1 (Submit_normalizes_returned_txid noUnicode)
                     World (client upperNode) background "00" "00" upperA start
                     O _ _) _).
    + reflexivity.
    + reflexivity.
    + vm_compute. reflexivity.
  - refine (proj2 (proj1 (Submit_normalizes_returned_txid noUnicode)
                     World _ background "00" "00" "bad" start O _ _) _).
    + reflexivity.
    + reflexivity.
    + reflexivity.
Defined.

(** A pending transaction seen by the direct lookup; a mined one, whose
    reply keeps to the data model, and the stale-block reply, which does
    not, both carried as they are; a pending one found in the mempool
    listing; and a pending one returned by [WaitForConfirmations]. *)
Lemma found_status_invariant_witness :
  (Confirmations
     {| TxID := txidB; InMempool := true; Confirmations := 0; BlockHash := "" |} = 0
   /\ BlockHash
        {| TxID := txidB; InMempool := true; Confirmations := 0; BlockHash := "" |}
      = "")
  /\ (statusInvariant
        {| TxID := txidB; InMempool := false; Confirmations := 1;
           BlockHash := txidC |}
      <-> replyInvariant minedReply)
  /\ (Confirmations
        {| TxID := txidB; InMempool := false; Confirmations := 0;
           BlockHash := txidC |} = v_Confirmations staleReply
      /\ BlockHash
           {| TxID := txidB; InMempool := false; Confirmations := 0;
              BlockHash := txidC |} = TrimSpace (v_BlockHash staleReply)
      /\ (statusInvariant
            {| TxID := txidB; InMempool := false; Confirmations := 0;
               BlockHash := txidC |}
          <-> replyInvariant staleReply))
  /\ statusInvariant
       {| TxID := txidB; InMempool := true; Confirmations := 0; BlockHash := "" |}
  /\ (Confirmations
        {| TxID := txidB; InMempool := true; Confirmations := 0; BlockHash := "" |} = 0
      /\ BlockHash
           {| TxID := txidB; InMempool := true; Confirmations := 0; BlockHash := "" |}
         = "").
Proof.
  split; [| split; [| split; [| split]]].
  - refine (proj1 (proj1 (found_status_invariant World noUnicode
                            (client miningNode) background txidB)
                     start {| world := 1%nat; trace := [lookupB] |}
                     {| TxID := txidB; InMempool := true; Confirmations := 0;
                        BlockHash := "" |} _) _).
    + vm_compute. reflexivity.
    + reflexivity.
  - refine (proj2 (proj2 (proj1 (proj2 (proj1 (found_status_invariant World noUnicode
                            (client miningNode) background txidB)
                     {| world := 2%nat; trace := [] |}
                     {| world := 3%nat; trace := [lookupB] |}
                     {| TxID := txidB; InMempool := false; Confirmations := 1;
                        BlockHash := txidC |} _)) 3%nat minedReply _))).
    + vm_compute. reflexivity.
    + reflexivity.
  - refine (proj1 (proj2 (proj1 (found_status_invariant World noUnicode
                            (client staleNode) background txidB)
                     start {| world := 1%nat; trace := [lookupB] |}
                     {| TxID := txidB; InMempool := false; Confirmations := 0;
                        BlockHash := txidC |} _)) 1%nat staleReply _).
    + vm_compute. reflexivity.
    + reflexivity.
  - refine (proj2 (proj2 (proj1 (found_status_invariant World noUnicode
                            (client unindexedNode) background txidB)
                     start {| world := 1%nat; trace := [lookupB; listingCall] |}
                     {| TxID := txidB; InMempool := true; Confirmations := 0;
                        BlockHash := "" |} _)) 1%nat zeroVerbose noSuchTx _).
    + vm_compute. reflexivity.
    + reflexivity.
  - refine (proj2 (found_status_invariant World noUnicode
                     (client unindexedNode) background txidB)
              1%nat 0 start {| world := 1%nat; trace := [lookupB; listingCall] |}
              {| TxID := txidB; InMempool := true; Confirmations := 0;
                 BlockHash := "" |} _ _).
    + vm_compute. reflexivity.
    + reflexivity.
Defined.

(** A poll interval that is not positive changes nothing. *)
Lemma New_fails_only_on_nil_transport_witness :
  New (Some upperNode) [Some (WithPollInterval (-5))]
  = (Some {| rpc := upperNode; pollInterval := 500000000 |}, None)
  /\ New (Some upperNode) [Some (WithPollInterval 0)]
     = (Some {| rpc := upperNode; pollInterval := 500000000 |}, None)
  /\ exists e, ConfigError e
               /\ New (@None (RPC World)) [Some (WithPollInterval 7)]
                  = (None, Some e).
Proof.
  pose proof (New_fails_only_on_nil_transport World) as (Hnil & _ & _ & Hdef).
  split; [| split].
  - apply (Hdef upperNode (-5)). lia.
  - apply (Hdef upperNode 0). lia.
  - apply (proj1 (Hnil None [Some (WithPollInterval 7)])). reflexivity.
Defined.

(** A negative target; the node that mines the transaction at the third
    lookup, waited on for one confirmation; the node that fails at the
    third lookup; and [TestWaitForConfirmations_ZeroReturnsOnMempool]. *)
Lemma WaitForConfirmations_contract_witness :
  (exists e,
      InvalidInput e
      /\ WaitForConfirmations noUnicode 3 (client miningNode) background txidB
           (-1) start
         = (start, Returned (zeroTxStatus, Some e)))
  /\ WaitForConfirmations noUnicode 3 (client miningNode) background txidB 1 start
     = ({| world := 3%nat; trace := [lookupB; lookupB; lookupB] |},
        Returned ({| TxID := txidB; InMempool := false; Confirmations := 1;
                     BlockHash := txidC |}, None))
  /\ WaitForConfirmations noUnicode 3 (client failingNode) background txidB 1 start
     = ({| world := 3%nat; trace := [lookupB; lookupB; lookupB] |},
        Returned (zeroTxStatus, Some (errors_New "connection refused")))
  /\ WaitForConfirmations noUnicode 1 (client unindexedNode) background txidB 0 start
     = ({| world := 1%nat; trace := [lookupB; listingCall] |},
        Returned ({| TxID := txidB; InMempool := true; Confirmations := 0;
                     BlockHash := "" |}, None)).
Proof.
  split; [| split; [| split]].
  - apply (proj1 (WaitForConfirmations_contract World noUnicode
                    (client miningNode) background txidB (-1))).
    lia.
  - refine (proj1 (proj1 (proj2 (WaitForConfirmations_contract World noUnicode
                                   (client miningNode) background txidB 1))
                     _ _ 2%nat 3%nat start _ _) _ _ _ _).
    + lia.
    + reflexivity.
    + intros [| [| j]] Hj; [vm_compute; reflexivity | vm_compute; reflexivity | lia].
    + lia.
    + vm_compute. reflexivity.
    + right. simpl. lia.
  - refine (proj2 (proj1 (proj2 (WaitForConfirmations_contract World noUnicode
                                   (client failingNode) background txidB 1))
                     _ _ 2%nat 3%nat start _ _) _ zeroTxStatus false _ _).
    + lia.
    + reflexivity.
    + intros [| [| j]] Hj; [vm_compute; reflexivity | vm_compute; reflexivity | lia].
    + lia.
    + vm_compute. reflexivity.
  - refine (proj1 (proj1 (proj2 (WaitForConfirmations_contract World noUnicode
                                   (client unindexedNode) background txidB 0))
                     _ _ O 1%nat start _ _) _ _ _ _).
    + lia.
    + reflexivity.
    + intros j Hj. lia.
    + lia.
    + vm_compute. reflexivity.
    + left. reflexivity.
Defined.

(** Cancellation between polls: the pending transaction has not the one
    confirmation asked for, the context is done at the [select], and its
    error comes back after a single poll. *)
Example WaitForConfirmations_cancelled :
  WaitForConfirmations noUnicode 5 (client unindexedNode) cancelled txidB 1 start
  = ({| world := 1%nat; trace := [lookupB; listingCall] |},
     Returned (zeroTxStatus, Some (errors_New "context canceled"))).
Proof. vm_compute. reflexivity. Qed.

(** [time.NewTicker] panics on the zero client's interval. *)
Example WaitForConfirmations_zero_interval :
  WaitForConfirmations noUnicode 5
    {| rpc := unindexedNode; pollInterval := 0 |} background txidB 1 start
  = (start, Panicked "non-positive interval for NewTicker").
Proof. reflexivity. Qed.

(** [strings.TrimSpace] takes off a no-break space (C2 A0) as well. *)
Example TrimSpace_no_break_space :
  TrimSpace (String (byte 194) (String (byte 160) " 0aF  ")) = "0aF".
Proof. reflexivity. Qed.

(** ** Trimming and lower-casing *)

Section DropFacts.

Variable two : ascii -> ascii -> bool.
Variable three : ascii -> ascii -> ascii -> bool.

Lemma stops_dropSpaces (l : list ascii) :
  stops two three l = true -> dropSpaces two three l = l.
Proof.
  destruct l as [| c1 [| c2 [| c3 r3]]]; simpl; try reflexivity.
  - destruct (asciiSpace c1); [discriminate | reflexivity].
  - destruct (asciiSpace c1); [discriminate |].
    destruct (two c1 c2); [discriminate | reflexivity].
  - destruct (asciiSpace c1); [discriminate |].
    destruct (two c1 c2); [discriminate |].
    destruct (three c1 c2 c3); [discriminate | reflexivity].
Qed.

(** What [dropSpaces] returns is a tail of its argument that [stops]. *)
Lemma dropSpaces_tail (l : list ascii) :
  stops two three (dropSpaces two three l) = true
  /\ exists p, l = (p ++ dropSpaces two three l)%list.
Proof.
  remember (List.length l) as n eqn:Hn. revert l Hn.
  induction n as [n IH] using lt_wf_ind. intros l ->.
  destruct l as [| c1 r1]; [split; [reflexivity | exists []; reflexivity] |].
  simpl. destruct (asciiSpace c1) eqn:A1.
  { destruct (IH (List.length r1) (Nat.lt_succ_diag_r _) r1 eq_refl) as [S (p & E)].
    split; [exact S |]. exists (c1 :: p). simpl. rewrite <- E. reflexivity. }
  destruct r1 as [| c2 r2].
  { split; [simpl; rewrite A1; reflexivity | exists []; reflexivity]. }
  destruct (two c1 c2) eqn:A2.
  { assert (L : (List.length r2 < List.length (c1 :: c2 :: r2))%nat) by (simpl; lia).
    destruct (IH (List.length r2) L r2 eq_refl) as [S (p & E)].
    split; [exact S |]. exists (c1 :: c2 :: p). simpl. rewrite <- E. reflexivity. }
  destruct r2 as [| c3 r3].
  { split; [simpl; rewrite A1, A2; reflexivity | exists []; reflexivity]. }
  destruct (three c1 c2 c3) eqn:A3.
  { assert (L : (List.length r3 < List.length (c1 :: c2 :: c3 :: r3))%nat) by (simpl; lia).
    destruct (IH (List.length r3) L r3 eq_refl) as [S (p & E)].
    split; [exact S |]. exists (c1 :: c2 :: c3 :: p). simpl. rewrite <- E.
    reflexivity. }
  split; [simpl; rewrite A1, A2, A3; reflexivity | exists []; reflexivity].
Qed.

Lemma stops_prefix (p q : list ascii) :
  stops two three (p ++ q)%list = true -> stops two three p = true.
Proof.
  destruct p as [| c1 [| c2 [| c3 r3]]]; simpl; try reflexivity.
  - destruct q as [| c2 [| c3 q]]; simpl; intro H;
      repeat (apply Bool.andb_true_iff in H; destruct H as [H ?]);
      rewrite H; reflexivity.
  - destruct q as [| c3 q]; simpl; intro H; [exact H |].
    apply Bool.andb_true_iff in H. destruct H as [H1 H].
    apply Bool.andb_true_iff in H. destruct H as [H2 H].
    rewrite H1, H2. reflexivity.
  - intro H. exact H.
Qed.

End DropFacts.

Section TrimFacts.

Lemma TrimRightSpace_prefix (l : list ascii) :
  exists q, l = (TrimRightSpace l ++ q)%list.
Proof.
  unfold TrimRightSpace.
  destruct (dropSpaces_tail (fun c2 c1 => space2 c1 c2)
              (fun c3 c2 c1 => space3 c1 c2 c3) (rev l)) as [_ (p & E)].
  exists (rev p). rewrite <- rev_app_distr, <- E, rev_involutive. reflexivity.
Qed.

Lemma TrimRightSpace_idempotent (l : list ascii) :
  TrimRightSpace (TrimRightSpace l) = TrimRightSpace l.
Proof.
  unfold TrimRightSpace. rewrite rev_involutive.
  rewrite stops_dropSpaces; [reflexivity |].
  apply dropSpaces_tail.
Qed.

(** The trimmed bytes start with no white-space rune and end with none. *)
Lemma trimmed_stops (l : list ascii) :
  stops space2 space3 (TrimRightSpace (TrimLeftSpace l)) = true.
Proof.
  destruct (TrimRightSpace_prefix (TrimLeftSpace l)) as [q E].
  apply (stops_prefix space2 space3 _ q). rewrite <- E.
  apply dropSpaces_tail.
Qed.

(** [strings.TrimSpace] has nothing left to trim from its own result. *)
Lemma TrimSpace_idempotent (s : string) : TrimSpace (TrimSpace s) = TrimSpace s.
Proof.
  unfold TrimSpace. rewrite list_ascii_of_string_of_list_ascii.
  f_equal. unfold TrimLeftSpace at 1.
  rewrite stops_dropSpaces by apply trimmed_stops.
  apply TrimRightSpace_idempotent.
Qed.

Lemma isHexDigit_code (c : ascii) :
  isHexDigit c = true -> (48 <= code c <= 102)%N.
Proof.
  unfold isHexDigit, inRange. intro H.
  repeat (apply Bool.orb_true_iff in H; destruct H as [H | H]);
    apply Bool.andb_true_iff in H; destruct H as [H1 H2];
    apply N.leb_le in H1; apply N.leb_le in H2; lia.
Qed.

(** A byte between '0' and 'f' opens or closes no white-space rune. *)
Lemma plain_byte (c : ascii) :
  (48 <= code c <= 102)%N ->
  asciiSpace c = false
  /\ (forall d, space2 c d = false)
  /\ (forall d, space2 d c = false)
  /\ (forall d e, space3 c d e = false)
  /\ (forall d e, space3 d e c = false)
  /\ isASCII c = true.
Proof.
  intro H. unfold asciiSpace, space2, space3, inRange, isASCII.
  repeat split; intros;
    repeat match goal with
      | |- context [N.eqb ?a ?b] =>
          let E := fresh "E" in
          destruct (N.eqb a b) eqn:E;
          [apply N.eqb_eq in E | apply N.eqb_neq in E]
      | |- context [N.leb ?a ?b] =>
          let E := fresh "E" in
          destruct (N.leb a b) eqn:E;
          [apply N.leb_le in E | apply N.leb_gt in E]
      | |- context [N.ltb ?a ?b] =>
          let E := fresh "E" in
          destruct (N.ltb a b) eqn:E;
          [apply N.ltb_lt in E | apply N.ltb_ge in E]
      end;
    simpl; try reflexivity; try lia.
Qed.

Lemma stops_plain (l : list ascii) :
  Forall (fun c => (48 <= code c <= 102)%N) l ->
  stops space2 space3 l = true
  /\ stops (fun c2 c1 => space2 c1 c2) (fun c3 c2 c1 => space3 c1 c2 c3) l = true.
Proof.
  intro H. destruct l as [| c1 r1]; [split; reflexivity |].
  inversion H as [| ? ? H1 Hr]; subst.
  destruct (plain_byte c1 H1) as (A & B & C & D & E & _).
  simpl. rewrite A. simpl.
  destruct r1 as [| c2 r2]; [split; reflexivity |].
  rewrite B, C. simpl.
  destruct r2 as [| c3 r3]; [split; reflexivity |].
  rewrite D, E. split; reflexivity.
Qed.

Lemma allHexDigits_plain (s : string) :
  allHexDigits s = true ->
  Forall (fun c => (48 <= code c <= 102)%N) (list_ascii_of_string s).
Proof.
  unfold allHexDigits. intro H. apply Forall_forall. intros c Hc.
  apply isHexDigit_code. exact (proj1 (forallb_forall _ _) H c Hc).
Qed.

(** A string of hexadecimal digits has nothing to trim. *)
Lemma TrimSpace_hex (s : string) : allHexDigits s = true -> TrimSpace s = s.
Proof.
  intro H. apply allHexDigits_plain in H.
  unfold TrimSpace, TrimLeftSpace, TrimRightSpace.
  rewrite (stops_dropSpaces space2 space3) by (apply stops_plain; exact H).
  rewrite stops_dropSpaces by (apply stops_plain, Forall_rev; exact H).
  rewrite rev_involutive. apply string_of_list_ascii_of_string.
Qed.

Lemma lowerByte_noUpper (c : ascii) :
  isASCII c = true -> inRange 65 90 (lowerByte c) = false.
Proof.
  unfold lowerByte. intro A.
  destruct (inRange 65 90 c) eqn:U; [| exact U].
  unfold inRange in *. apply Bool.andb_true_iff in U. destruct U as [U1 U2].
  apply N.leb_le in U1. apply N.leb_le in U2.
  unfold byte, code. rewrite N_ascii_embedding by (unfold code in *; lia).
  unfold code in *.
  destruct (N.leb 65 (N_of_ascii c + 32)) eqn:E1; [| reflexivity].
  destruct (N.leb (N_of_ascii c + 32) 90) eqn:E2; [| reflexivity].
  apply N.leb_le in E2. lia.
Qed.

Lemma lowerByte_never_upper (c : ascii) : inRange 65 90 (lowerByte c) = false.
Proof.
  destruct (inRange 65 90 c) eqn:U.
  - apply lowerByte_noUpper. unfold inRange, isASCII in *.
    apply Bool.andb_true_iff in U. destruct U as [_ U].
    apply N.leb_le in U. apply N.ltb_lt. lia.
  - unfold lowerByte. rewrite U. exact U.
Qed.

(** The ASCII part of the case mapping is one function with the property
    asked of the Unicode tables. *)
Lemma lowerBytes_lowersASCII : lowersASCII lowerBytes.
Proof.
  intro s. unfold noUpper, lowerBytes.
  rewrite list_ascii_of_string_of_list_ascii.
  apply forallb_forall. intros c Hc.
  apply in_map_iff in Hc. destruct Hc as (c0 & <- & _).
  rewrite lowerByte_never_upper. reflexivity.
Qed.

Lemma lowerByte_fixed (c : ascii) :
  inRange 65 90 c = false -> lowerByte c = c.
Proof. unfold lowerByte. intros ->. reflexivity. Qed.

(** Whatever [strings.ToLower] returns has no upper-case ASCII letter,
    given that much of the Unicode tables. *)
Lemma ToLower_noUpper (mapLower : string -> string) (s : string) :
  lowersASCII mapLower -> noUpper (ToLower mapLower s) = true.
Proof.
  intro HL. unfold ToLower.
  destruct (forallb isASCII (list_ascii_of_string s)) eqn:A; [| apply HL].
  unfold noUpper. rewrite list_ascii_of_string_of_list_ascii.
  rewrite forallb_forall in *. intros c Hc.
  apply in_map_iff in Hc. destruct Hc as (c0 & <- & Hc0).
  rewrite lowerByte_noUpper; [reflexivity | exact (A c0 Hc0)].
Qed.

(** [strings.ToLower] leaves a string of hexadecimal digits without
    upper-case letters as it is. *)
Lemma ToLower_lower_hex (mapLower : string -> string) (s : string) :
  allHexDigits s = true -> noUpper s = true -> ToLower mapLower s = s.
Proof.
  intros H U. unfold ToLower.
  assert (A : forallb isASCII (list_ascii_of_string s) = true).
  { apply forallb_forall. intros c Hc.
    apply (plain_byte c).
    exact (proj1 (Forall_forall _ _) (allHexDigits_plain s H) c Hc). }
  rewrite A. rewrite <- (string_of_list_ascii_of_string s) at 2. f_equal.
  unfold noUpper in U. rewrite forallb_forall in U.
  rewrite <- (map_id (list_ascii_of_string s)) at 2.
  apply map_ext_in. intros c Hc. apply lowerByte_fixed.
  apply Bool.negb_true_iff. exact (U c Hc).
Qed.

End TrimFacts.

(** ** More about the package *)

Section MoreStatus.

Variable W : Type.
Variable mapLower : string -> string.
Variables (c : Client W) (ctx : Context W).

Local Abbreviation norm := (normalized mapLower).

(** The four ways through [Status]. *)
Lemma Status_cases (txid : string) (s : State W) :
  (is64Hex (norm txid) = false
   /\ Status mapLower c ctx txid s
      = (s, (zeroTxStatus, false,
             Some (errors_New "broadcast: txid must be 32-byte hex"))))
  \/ (is64Hex (norm txid) = true
      /\ exists w v,
           Status mapLower c ctx txid s
           = (lookedUp mapLower txid s w,
              ({| TxID := norm txid;
                  InMempool := (v_Confirmations v =? 0)
                               && String.eqb (v_BlockHash v) "";
                  Confirmations := v_Confirmations v;
                  BlockHash := TrimSpace (v_BlockHash v) |}, true, None)))
  \/ (is64Hex (norm txid) = true
      /\ exists w e,
           isNotFoundErr mapLower e = false
           /\ Status mapLower c ctx txid s
              = (lookedUp mapLower txid s w, (zeroTxStatus, false, Some e)))
  \/ (is64Hex (norm txid) = true
      /\ exists w' mempool err,
           Status mapLower c ctx txid s
           = (listed mapLower txid s w',
              match err with
              | Some err =>
                  (zeroTxStatus, false,
                   Some (Errorf_w "broadcast: getrawmempool: " err))
              | None =>
                  if inListing mapLower mempool (norm txid) then
                    ({| TxID := norm txid; InMempool := true;
                        Confirmations := 0; BlockHash := "" |}, true, None)
                  else (zeroTxStatus, false, None)
              end)).
Proof.
  destruct (is64Hex (norm txid)) eqn:Hid.
  2:{ left. split; [reflexivity |].
      exact (Status_malformed W mapLower c ctx txid s Hid). }
  right.
  destruct (Call (rpc c) ctx "getrawtransaction"
              [AString (norm txid); AInt 1] OutVerbose (world s))
    as [w [v [e |]]] eqn:Hc.
  - destruct (isNotFoundErr mapLower e) eqn:He.
    + right. right. split; [reflexivity |].
      destruct (Call (rpc c) ctx "getrawmempool" [ABool false] OutStrings w)
        as [w' [mempool err]] eqn:Hm.
      exists w', mempool, err.
      exact (Status_fallback W mapLower c ctx txid s w w' v e mempool err
               Hid Hc He Hm).
    + right. left. split; [reflexivity |]. exists w, e. split; [exact He |].
      exact (Status_direct_failure W mapLower c ctx txid s w v e Hid Hc He).
  - left. split; [reflexivity |]. exists w, v.
    exact (Status_direct_hit W mapLower c ctx txid s w v Hid Hc).
Qed.

Lemma Status_found_txid (txid : string) (s s' : State W) (st : TxStatus)
  (err : option error) :
  Status mapLower c ctx txid s = (s', (st, true, err)) ->
  TxID st = norm txid /\ is64Hex (norm txid) = true.
Proof.
  intro H.
  destruct (Status_cases txid s)
    as [[Hid E] | [[Hid (w & v & E)] | [[Hid (w & e & He & E)]
                                       | [Hid (w' & mempool & err' & E)]]]];
    rewrite E in H.
  - discriminate H.
  - injection H as _ <- _. auto.
  - discriminate H.
  - destruct err' as [e' |]; [discriminate H |].
    destruct (inListing mapLower mempool (norm txid)); [| discriminate H].
    injection H as _ <- _. auto.
Qed.

(** X1: an identifier that is not 64 hexadecimal characters once trimmed
    and lower-cased makes [Status] fail with the error
    "broadcast: txid must be 32-byte hex" (an [InvalidInput] error), with
    the empty status and [found = false], and the state is left as it
    was: nothing is asked of the transport.  For any other identifier
    [Status] does ask the transport, so the trace grows. *)
Theorem Status_rejects_malformed_txid (txid : string) (s : State W) :
  (is64Hex (norm txid) = false ->
   InvalidInput (errors_New "broadcast: txid must be 32-byte hex")
   /\ Status mapLower c ctx txid s
      = (s, (zeroTxStatus, false,
             Some (errors_New "broadcast: txid must be 32-byte hex"))))
  /\ (is64Hex (norm txid) = true ->
      trace (fst (Status mapLower c ctx txid s)) <> trace s).
Proof.
  split; intro H.
  - split.
    + unfold InvalidInput. right. right. left. reflexivity.
    + exact (Status_malformed W mapLower c ctx txid s H).
  - assert (N : forall (l : list Event) x r, (l ++ x :: r)%list <> l).
    { intros l x r F. rewrite <- (app_nil_r l) in F at 2.
      apply app_inv_head in F. discriminate F. }
    destruct (Status_cases txid s)
      as [[Hid E] | [[Hid (w & v & E)] | [[Hid (w & e & He & E)]
                                         | [Hid (w' & mempool & err' & E)]]]];
      rewrite E; simpl.
    + congruence.
    + apply N.
    + apply N.
    + apply N.
Qed.

(** X2: when the direct lookup fails with a not-found error and the
    mempool listing fails too, [Status] returns the listing's error
    wrapped under "broadcast: getrawmempool: ", with the empty status and
    [found = false], whatever list came with the error; an RPC error
    inside the listing's error is still found inside the wrapped one. *)
Theorem Status_listing_failure (txid : string) (s : State W) (w w' : W)
  (v : verboseTx) (e e' : error) (mempool : list string) :
  is64Hex (norm txid) = true ->
  Call (rpc c) ctx "getrawtransaction" [AString (norm txid); AInt 1]
       OutVerbose (world s) = (w, (v, Some e)) ->
  isNotFoundErr mapLower e = true ->
  Call (rpc c) ctx "getrawmempool" [ABool false] OutStrings w
  = (w', (mempool, Some e')) ->
  Status mapLower c ctx txid s
  = ({| world := w';
        trace := trace s ++ [lookupOf (norm txid); listingOf] |},
     (zeroTxStatus, false, Some (Errorf_w "broadcast: getrawmempool: " e')))
  /\ forall r, IsOrWraps e' r
               <-> IsOrWraps (Errorf_w "broadcast: getrawmempool: " e') r.
Proof.
  intros H Hc He Hm. split.
  - exact (Status_fallback W mapLower c ctx txid s w w' v e mempool (Some e')
             H Hc He Hm).
  - intro r. split; intro Hr.
    + constructor. exact Hr.
    + inversion Hr; subst. assumption.
Qed.

(** X5: the shape of every result of [Status]: with an error, or with
    [found = false], the status is the empty one; with [found = true]
    there is no error and the status carries the normalized identifier,
    which is 64 hexadecimal characters. *)
Theorem Status_result_shape (txid : string) (s s' : State W) (st : TxStatus)
  (found : bool) (err : option error) :
  Status mapLower c ctx txid s = (s', (st, found, err)) ->
  (err <> None -> found = false)
  /\ (found = false -> st = zeroTxStatus)
  /\ (found = true ->
      err = None /\ TxID st = norm txid /\ is64Hex (TxID st) = true).
Proof.
  intro H.
  destruct (Status_cases txid s)
    as [[Hid E] | [[Hid (w & v & E)] | [[Hid (w & e & He & E)]
                                       | [Hid (w' & mempool & err' & E)]]]];
    rewrite E in H.
  all: try (destruct err' as [e' |]).
  all: try (destruct (inListing mapLower mempool (norm txid))).
  all: injection H as _ <- <- <-.
  all: split; [| split]; intro F;
    try reflexivity; try discriminate F; try (contradiction F; reflexivity).
  all: repeat split; try reflexivity; exact Hid.
Qed.

(** X6: what [Status] asks of the transport is nothing (then the world is
    untouched), the direct lookup of the normalized identifier, or that
    lookup followed by the mempool listing: never more than two calls,
    never the listing without or before the lookup, and never a
    broadcast. *)
Theorem Status_transport_calls (txid : string) (s : State W) :
  exists evs,
    trace (fst (Status mapLower c ctx txid s)) = (trace s ++ evs)%list
    /\ ((evs = [] /\ world (fst (Status mapLower c ctx txid s)) = world s)
        \/ evs = [lookupOf (norm txid)]
        \/ evs = [lookupOf (norm txid); listingOf]).
Proof.
  destruct (Status_cases txid s)
    as [[Hid E] | [[Hid (w & v & E)] | [[Hid (w & e & He & E)]
                                       | [Hid (w' & mempool & err' & E)]]]];
    rewrite E; simpl.
  - exists []. rewrite app_nil_r. auto.
  - eexists. split; [reflexivity |]. auto.
  - eexists. split; [reflexivity |]. auto.
  - eexists. split; [reflexivity |]. auto.
Qed.

(** Every call of [Status] is one of the two read-only ones. *)
Lemma Status_queries (txid : string) (s : State W) :
  exists evs,
    trace (fst (Status mapLower c ctx txid s)) = (trace s ++ evs)%list
    /\ Forall (fun ev => ev = lookupOf (norm txid) \/ ev = listingOf) evs
    /\ (List.length evs <= 2)%nat.
Proof.
  destruct (Status_cases txid s)
    as [[Hid E] | [[Hid (w & v & E)] | [[Hid (w & e & He & E)]
                                       | [Hid (w' & mempool & err' & E)]]]];
    rewrite E; simpl.
  - exists []. rewrite app_nil_r. repeat split; auto.
  - eexists. split; [reflexivity |]. split; [| simpl; lia].
    repeat constructor.
  - eexists. split; [reflexivity |]. split; [| simpl; lia].
    repeat constructor.
  - eexists. split; [reflexivity |]. split; [| simpl; lia].
    constructor; [left; reflexivity |].
    constructor; [right; reflexivity | constructor].
Qed.

End MoreStatus.

Section MoreSubmit.

Variable W : Type.
Variable mapLower : string -> string.
Variables (c : Client W) (ctx : Context W).

(** What [normalizeHex] accepts is what it returns for it. *)
Lemma normalizeHex_accepted (rawTxHex raw : string) :
  normalizeHex rawTxHex = (raw, None) ->
  raw = TrimSpace rawTxHex /\ raw <> "" /\ validHex raw = true.
Proof.
  unfold normalizeHex.
  destruct (String.eqb (TrimSpace rawTxHex) "") eqn:E; [discriminate |].
  destruct (snd (DecodeString (TrimSpace rawTxHex))) eqn:D; [discriminate |].
  intro H. injection H as <-.
  apply String.eqb_neq in E. apply DecodeString_validHex in D. auto.
Qed.

(** X3: an error of the transport's [SendRawTransaction] comes back from
    [Submit] as it is, with the empty string, after that single call;
    whatever identifier came with the error is dropped. *)
Theorem Submit_transport_error (rawTxHex txid : string) (s : State W) (w : W)
  (e : error) :
  TrimSpace rawTxHex <> "" ->
  validHex (TrimSpace rawTxHex) = true ->
  SendRawTransaction (rpc c) ctx (TrimSpace rawTxHex) (world s)
  = (w, (txid, Some e)) ->
  Submit mapLower c ctx rawTxHex s
  = ({| world := w;
        trace := trace s ++ [EvSendRawTransaction (TrimSpace rawTxHex)] |},
     ("", Some e)).
Proof.
  intros Hne Hhex Hs. unfold Submit.
  rewrite (normalizeHex_accepts rawTxHex Hne Hhex).
  unfold bind, doSendRawTransaction. rewrite Hs. reflexivity.
Qed.

(** X4: whenever [Submit] returns without error, what it returns is
    exactly 64 hexadecimal characters, and it got there by one broadcast
    of a payload that is not empty and is valid hexadecimal. *)
Theorem Submit_success (rawTxHex id : string) (s s' : State W) :
  Submit mapLower c ctx rawTxHex s = (s', (id, None)) ->
  is64Hex id = true
  /\ TrimSpace rawTxHex <> ""
  /\ validHex (TrimSpace rawTxHex) = true
  /\ trace s' = (trace s ++ [EvSendRawTransaction (TrimSpace rawTxHex)])%list.
Proof.
  unfold Submit.
  destruct (normalizeHex rawTxHex) as [raw [e |]] eqn:Hn; [discriminate |].
  destruct (normalizeHex_accepted _ _ Hn) as (-> & Hne & Hhex).
  unfold bind, doSendRawTransaction.
  destruct (SendRawTransaction (rpc c) ctx (TrimSpace rawTxHex) (world s))
    as [w [txid [e |]]]; [discriminate |].
  rewrite badTxID_is64Hex.
  destruct (is64Hex (ToLower mapLower (TrimSpace txid))) eqn:Hid;
    [| discriminate].
  simpl. intro H. injection H as <- <-. auto.
Qed.

(** X7: the identifier a successful [Submit] returns is in canonical
    form: trimming and lower-casing it again changes nothing, so [Status]
    and [WaitForConfirmations] accept it and ask the daemon about that
    very string.  This needs of the Unicode tables that lower-casing
    yields no upper-case ASCII letter. *)
Theorem Submit_returns_canonical_txid (rawTxHex id : string) (s s' : State W) :
  lowersASCII mapLower ->
  Submit mapLower c ctx rawTxHex s = (s', (id, None)) ->
  normalized mapLower id = id /\ is64Hex (normalized mapLower id) = true.
Proof.
  intros HL. unfold Submit.
  destruct (normalizeHex rawTxHex) as [raw [e |]] eqn:Hn; [discriminate |].
  unfold bind, doSendRawTransaction.
  destruct (SendRawTransaction (rpc c) ctx raw (world s))
    as [w [txid [e |]]]; [discriminate |].
  rewrite badTxID_is64Hex.
  destruct (is64Hex (ToLower mapLower (TrimSpace txid))) eqn:Hid;
    [| discriminate].
  simpl. intro H. injection H as _ <-.
  assert (Hhex : allHexDigits (ToLower mapLower (TrimSpace txid)) = true).
  { unfold is64Hex in Hid. apply Bool.andb_true_iff in Hid. apply Hid. }
  assert (E : normalized mapLower (ToLower mapLower (TrimSpace txid))
              = ToLower mapLower (TrimSpace txid)).
  { unfold normalized. rewrite (TrimSpace_hex _ Hhex).
    apply ToLower_lower_hex; [exact Hhex |].
    apply ToLower_noUpper. exact HL. }
  rewrite E. auto.
Qed.

(** X8: [normalizeHex] returns the empty string with every error, and
    with none a non-empty valid hexadecimal string that it would return
    unchanged if given it again. *)
Theorem normalizeHex_idempotent (s r : string) (err : option error) :
  normalizeHex s = (r, err) ->
  (err <> None -> r = "")
  /\ (err = None ->
      r <> "" /\ validHex r = true /\ normalizeHex r = (r, None)).
Proof.
  intro H. destruct err as [e |].
  - split; [| discriminate]. intros _. revert H. unfold normalizeHex.
    destruct (String.eqb (TrimSpace s) "").
    + intro H. injection H as <- _. reflexivity.
    + destruct (snd (DecodeString (TrimSpace s))); intro H.
      * injection H as <- _. reflexivity.
      * discriminate H.
  - split; [intro F; contradiction F; reflexivity |]. intros _.
    destruct (normalizeHex_accepted _ _ H) as (E & Hne & Hhex).
    repeat split; try assumption.
    assert (T : TrimSpace r = r).
    { apply TrimSpace_hex. unfold validHex in Hhex.
      apply Bool.andb_true_iff in Hhex. apply Hhex. }
    rewrite <- T at 2. apply normalizeHex_accepts; rewrite T; assumption.
Qed.

End MoreSubmit.

(** ** More about the not-found phrasing *)

Section Phrasing.

Lemma prefix_app (a b s : string) :
  prefix (a ++ b) s = true -> prefix a s = true.
Proof.
  revert s. induction a as [| x a IH]; intros [| y s]; simpl;
    try reflexivity; try discriminate.
  destruct (ascii_dec x y); [apply IH | discriminate].
Qed.

Lemma Contains_app (s a b : string) :
  Contains s (a ++ b) = true -> Contains s a = true.
Proof.
  induction s as [| y s IH]; intro H.
  - change (prefix (a ++ b) "" || false = true)%bool in H.
    change (prefix a "" || false = true)%bool.
    apply Bool.orb_true_iff in H. destruct H as [H | H]; [| discriminate].
    apply prefix_app in H. rewrite H. reflexivity.
  - change (prefix (a ++ b) (String y s) || Contains s (a ++ b) = true)%bool in H.
    change (prefix a (String y s) || Contains s a = true)%bool.
    apply Bool.orb_true_iff in H. destruct H as [H | H].
    + apply prefix_app in H. rewrite H. reflexivity.
    + rewrite (IH H). apply Bool.orb_true_r.
Qed.

(** X9: the first of the three tests of [isNotFoundErr] adds nothing: a
    message that contains "no such mempool" contains "no such", so an
    error is classified as not-found exactly when it is or wraps an RPC
    error whose lower-cased message contains "no such" or "not found". *)
Theorem isNotFoundErr_two_phrases (mapLower : string -> string) (e : error) :
  isNotFoundErr mapLower e = true
  <-> exists r,
        IsOrWraps e r
        /\ (Contains (ToLower mapLower (Message r)) "no such" = true
            \/ Contains (ToLower mapLower (Message r)) "not found" = true).
Proof.
  rewrite isNotFoundErr_spec. unfold notFoundPhrasing.
  split; intros (r & Hr & H); exists r; (split; [exact Hr |]).
  - apply Bool.orb_true_iff in H. destruct H as [H | H]; [| auto].
    apply Bool.orb_true_iff in H. destruct H as [H | H]; [| auto].
    left. apply (Contains_app _ "no such" " mempool"). exact H.
  - destruct H as [H | H]; rewrite H.
    + rewrite Bool.orb_true_r. reflexivity.
    + apply Bool.orb_true_r.
Qed.

End Phrasing.

(** ** More about New *)

Section MoreNew.

Variable W : Type.

Lemma applyOpts_intervalOpts (ds : list (option Z)) (c : Client W) :
  rpc (applyOpts (intervalOpts ds) c) = rpc c
  /\ ((nonePositive ds
       /\ pollInterval (applyOpts (intervalOpts ds) c) = pollInterval c)
      \/ exists pre d post,
           ds = (pre ++ Some d :: post)%list
           /\ 0 < d
           /\ nonePositive post
           /\ pollInterval (applyOpts (intervalOpts ds) c) = d).
Proof.
  revert c. induction ds as [| x ds IH]; intro c.
  - split; [reflexivity |]. left. split; [intros d [] | reflexivity].
  - destruct x as [d |]; simpl.
    + destruct (IH (WithPollInterval d c)) as [R [[N P] | (pre & d' & post & E & Hd & N & P)]].
      * unfold WithPollInterval in *. destruct (0 <? d) eqn:Hd.
        -- split; [exact R |]. right. exists [], d, ds.
           apply Z.ltb_lt in Hd. repeat split; auto.
        -- split; [exact R |]. left. split; [| exact P].
           intros d0 [H | H]; [| exact (N d0 H)].
           injection H as <-. apply Z.ltb_ge in Hd. exact Hd.
      * split.
        -- rewrite R. unfold WithPollInterval. destruct (0 <? d); reflexivity.
        -- right. exists (Some d :: pre), d', post.
           repeat split; auto. rewrite E. reflexivity.
    + destruct (IH c) as [R [[N P] | (pre & d' & post & E & Hd & N & P)]].
      * split; [exact R |]. left. split; [| exact P].
        intros d0 [H | H]; [discriminate H | exact (N d0 H)].
      * split; [exact R |]. right. exists (None :: pre), d', post.
        repeat split; auto. rewrite E. reflexivity.
Qed.

(** X10: [New] on a transport and on options made by [WithPollInterval]
    (with [nil] options among them, which are skipped) never fails; the
    client has that transport, and its poll interval is the last positive
    value given, or the 500 ms default when no value given is positive.
    Either way the interval is positive. *)
Theorem New_poll_interval (r : RPC W) (ds : list (option Z)) :
  exists c,
    New (Some r) (intervalOpts ds) = (Some c, None)
    /\ rpc c = r
    /\ 0 < pollInterval c
    /\ ((nonePositive ds /\ pollInterval c = 500000000)
        \/ exists pre d post,
             ds = (pre ++ Some d :: post)%list
             /\ 0 < d
             /\ nonePositive post
             /\ pollInterval c = d).
Proof.
  pose (c0 := {| rpc := r; pollInterval := 500 * Millisecond |}).
  exists (applyOpts (intervalOpts ds) c0). split; [reflexivity |].
  destruct (applyOpts_intervalOpts ds c0)
    as [R [[N P] | (pre & d & post & E & Hd & N & P)]].
  - split; [exact R |]. rewrite P. split; [reflexivity |]. left. auto.
  - split; [exact R |]. rewrite P. split; [exact Hd |].
    right. exists pre, d, post. repeat split; auto.
Qed.

Lemma New_intervalOpts_positive (r : RPC W) (ds : list (option Z)) (c : Client W) :
  New (Some r) (intervalOpts ds) = (Some c, None) -> 0 < pollInterval c.
Proof.
  pose (c0 := {| rpc := r; pollInterval := 500 * Millisecond |}).
  change (New (Some r) (intervalOpts ds))
    with (Some (applyOpts (intervalOpts ds) c0), @None error).
  intro H. injection H as <-.
  destruct (applyOpts_intervalOpts ds c0)
    as [_ [[_ P] | (pre & d & post & _ & Hd & _ & P)]]; rewrite P.
  - reflexivity.
  - exact Hd.
Qed.

End MoreNew.

(** ** More about WaitForConfirmations *)

Section MoreWait.

Variable W : Type.
Variable mapLower : string -> string.
Variables (c : Client W) (ctx : Context W) (txid : string).
Variable confirmations : Z.

Local Abbreviation norm := (normalized mapLower).
Local Abbreviation loop :=
  (fun fuel => pollLoop mapLower fuel c ctx txid confirmations).
Local Abbreviation wait fuel :=
  (WaitForConfirmations mapLower fuel c ctx txid confirmations).

Lemma doSelect_trace (s : State W) : trace (fst (doSelect ctx s)) = trace s.
Proof.
  unfold doSelect. destruct (selectDoneOrTick ctx (world s)). reflexivity.
Qed.

Lemma pollLoop_never_panics (fuel : nat) (s : State W) (msg : string) :
  snd (loop fuel s) <> Panicked msg.
Proof.
  revert s. induction fuel as [| fuel IH]; intro s; simpl; [discriminate |].
  unfold bind.
  destruct (Status mapLower c ctx txid s) as [s1 [[st found] [e |]]];
    [discriminate |].
  destruct (found && ((confirmations =? 0) || (confirmations <=? Confirmations st)))%bool;
    [discriminate |].
  destruct (doSelect ctx s1) as [s2 [ce |]]; [discriminate | apply IH].
Qed.

Lemma pollLoop_queries (fuel : nat) (s : State W) :
  exists evs,
    trace (fst (loop fuel s)) = (trace s ++ evs)%list
    /\ Forall (fun ev => ev = lookupOf (norm txid) \/ ev = listingOf) evs
    /\ (List.length evs <= 2 * fuel)%nat.
Proof.
  revert s. induction fuel as [| fuel IH]; intro s.
  - exists []. simpl. rewrite app_nil_r. repeat split; auto.
  - destruct (Status_queries W mapLower c ctx txid s) as (evs1 & T1 & Q1 & L1).
    simpl. unfold bind.
    destruct (Status mapLower c ctx txid s) as [s1 [[st found] [e |]]].
    + exists evs1. simpl in *. repeat split; auto. lia.
    + simpl in T1.
      destruct (found && ((confirmations =? 0) || (confirmations <=? Confirmations st)))%bool.
      * exists evs1. simpl. repeat split; auto. lia.
      * pose proof (doSelect_trace s1) as T2.
        destruct (doSelect ctx s1) as [s2 [ce |]]; simpl in T2.
        -- exists evs1. simpl. rewrite T2. repeat split; auto. lia.
        -- destruct (IH s2) as (evs2 & T3 & Q3 & L3).
           exists (evs1 ++ evs2)%list. rewrite T3, T2, T1, app_assoc.
           split; [reflexivity |]. split; [apply Forall_app; auto |].
           rewrite length_app. lia.
Qed.

Lemma pollLoop_error_shape (fuel : nat) (s : State W) (st : TxStatus) (e : error) :
  snd (loop fuel s) = Returned (st, Some e) -> st = zeroTxStatus.
Proof.
  revert s. induction fuel as [| fuel IH]; intro s; simpl; [discriminate |].
  unfold bind.
  destruct (Status mapLower c ctx txid s) as [s1 [[st1 found] [e1 |]]].
  - simpl. intro H. injection H as <- _. reflexivity.
  - destruct (found && ((confirmations =? 0) || (confirmations <=? Confirmations st1)))%bool.
    + simpl. discriminate.
    + destruct (doSelect ctx s1) as [s2 [ce |]].
      * simpl. intro H. injection H as <- _. reflexivity.
      * apply IH.
Qed.

(** X11: [WaitForConfirmations] panics exactly when the target is not
    negative and the client's poll interval is not positive (in
    [time.NewTicker], before anything is asked of the transport); a
    client that [New] made from [WithPollInterval] options therefore
    never does. *)
Theorem WaitForConfirmations_panics_only_on_bad_interval (fuel : nat)
  (s : State W) :
  ((exists msg, snd (wait fuel s) = Panicked msg)
   <-> 0 <= confirmations /\ pollInterval c <= 0)
  /\ (forall msg, snd (wait fuel s) = Panicked msg -> fst (wait fuel s) = s)
  /\ (forall ds, New (Some (rpc c)) (intervalOpts ds) = (Some c, None) ->
                 forall msg, snd (wait fuel s) <> Panicked msg).
Proof.
  assert (A : (exists msg, snd (wait fuel s) = Panicked msg)
              <-> 0 <= confirmations /\ pollInterval c <= 0).
  { unfold WaitForConfirmations.
    destruct (confirmations <? 0) eqn:E1.
    { apply Z.ltb_lt in E1. split; [intros (msg & H); discriminate H | lia]. }
    apply Z.ltb_ge in E1.
    destruct (pollInterval c <=? 0) eqn:E2.
    { apply Z.leb_le in E2. split; [auto |]. intros _. eexists. reflexivity. }
    apply Z.leb_gt in E2. split; [| lia].
    intros (msg & H). exfalso. exact (pollLoop_never_panics fuel s msg H). }
  split; [exact A |]. split.
  - intros msg H. revert H. unfold WaitForConfirmations.
    destruct (confirmations <? 0); [discriminate |].
    destruct (pollInterval c <=? 0); [reflexivity |].
    intro H. exfalso. exact (pollLoop_never_panics fuel s msg H).
  - intros ds HN msg H.
    pose proof (New_intervalOpts_positive W (rpc c) ds c HN) as Hp.
    assert (P : exists m, snd (wait fuel s) = Panicked m) by (exists msg; exact H).
    apply A in P. lia.
Qed.

(** X12: cancellation.  If every poll before number [k] went on, poll
    [k] returns no error and misses the target, and the context is done
    when the [select] is reached, then [WaitForConfirmations] returns the
    context's error with the empty status, in the state that [select]
    left; the [select] itself asks nothing of the transport. *)
Theorem WaitForConfirmations_returns_on_cancel (k fuel : nat) (s s1 s2 : State W)
  (st : TxStatus) (found : bool) (e : error) :
  0 <= confirmations ->
  0 < pollInterval c ->
  (forall j, (j < k)%nat ->
             goesOn mapLower c ctx txid confirmations j s = true) ->
  (k < fuel)%nat ->
  poll mapLower c ctx txid k s = (s1, (st, found, None)) ->
  reached confirmations (st, found, None) = false ->
  doSelect ctx s1 = (s2, Some e) ->
  wait fuel s = (s2, Returned (zeroTxStatus, Some e))
  /\ trace s2 = trace s1.
Proof.
  intros Hc Hi Hon Hk HP HR HD. split.
  - unfold WaitForConfirmations.
    apply Z.ltb_ge in Hc. rewrite Hc.
    apply Z.leb_gt in Hi. rewrite Hi.
    assert (Hf : fuel = (k + S (fuel - S k))%nat) by lia.
    rewrite Hf.
    rewrite (pollLoop_rounds W mapLower c ctx txid confirmations k _ s Hon).
    simpl. unfold bind. unfold poll in HP. rewrite HP.
    unfold reached in HR. rewrite HR, HD. reflexivity.
  - pose proof (doSelect_trace s1) as T. rewrite HD in T. exact T.
Qed.

(** X13: whatever [WaitForConfirmations] asks of the transport is the
    lookup of the normalized identifier or the mempool listing, at most
    two calls for each poll the fuel allows: waiting never broadcasts. *)
Theorem WaitForConfirmations_only_queries (fuel : nat) (s : State W) :
  exists evs,
    trace (fst (wait fuel s)) = (trace s ++ evs)%list
    /\ Forall (fun ev => ev = lookupOf (norm txid) \/ ev = listingOf) evs
    /\ (List.length evs <= 2 * fuel)%nat.
Proof.
  unfold WaitForConfirmations.
  destruct (confirmations <? 0).
  { exists []. simpl. rewrite app_nil_r. repeat split; auto. lia. }
  destruct (pollInterval c <=? 0).
  { exists []. simpl. rewrite app_nil_r. repeat split; auto. lia. }
  apply pollLoop_queries.
Qed.

(** X14: with a target that is not negative, waiting for an identifier
    that is not 64 hexadecimal characters fails at the first poll with
    the [InvalidInput] error of [Status]; nothing is asked of the
    transport and the [select] is not reached. *)
Theorem WaitForConfirmations_malformed_txid (fuel : nat) (s : State W) :
  0 <= confirmations ->
  0 < pollInterval c ->
  is64Hex (norm txid) = false ->
  wait (S fuel) s
  = (s, Returned (zeroTxStatus,
                  Some (errors_New "broadcast: txid must be 32-byte hex"))).
Proof.
  intros Hc Hi Hid. unfold WaitForConfirmations.
  apply Z.ltb_ge in Hc. rewrite Hc.
  apply Z.leb_gt in Hi. rewrite Hi.
  apply (pollLoop_failure W mapLower c ctx txid confirmations fuel s s
           zeroTxStatus false).
  exact (Status_malformed W mapLower c ctx txid s Hid).
Qed.

(** X15: the shape of what [WaitForConfirmations] returns: with an error
    the status is the empty one; without, the status carries the
    normalized identifier, which is 64 hexadecimal characters, and the
    target is 0 or is met by its confirmations. *)
Theorem WaitForConfirmations_result_shape (fuel : nat) (s : State W)
  (st : TxStatus) (err : option error) :
  snd (wait fuel s) = Returned (st, err) ->
  (err <> None -> st = zeroTxStatus)
  /\ (err = None ->
      TxID st = norm txid
      /\ is64Hex (TxID st) = true
      /\ (confirmations = 0 \/ confirmations <= Confirmations st)).
Proof.
  unfold WaitForConfirmations.
  destruct (confirmations <? 0).
  { simpl. intro H. injection H as <- <-. split; [reflexivity | discriminate]. }
  destruct (pollInterval c <=? 0); [discriminate |].
  intro H. destruct err as [e |].
  - split; [| discriminate]. intros _.
    exact (pollLoop_error_shape fuel s st e H).
  - split; [intro F; contradiction F; reflexivity |]. intros _.
    destruct (loop fuel s) as [s' r] eqn:E. simpl in H. subst r.
    destruct (pollLoop_returned W mapLower c ctx txid confirmations fuel s s' st E)
      as (k & _ & _ & HP & HT).
    unfold poll in HP.
    destruct (Status_found_txid W mapLower c ctx txid _ _ _ _ HP) as [T I].
    rewrite T. auto.
Qed.

End MoreWait.

(** ** The command line *)

Section CliInputs.

Variable Getenv : string -> string.
Variable ReadFile : string -> string * option error.
Variable Base : string -> string.

Local Abbreviation config := (Cli.rpcConfigFromFlags Getenv).
Local Abbreviation load := (Cli.loadHexInput ReadFile Base).

Local Abbreviation orEnv := (Cli.flagOrEnv Getenv).

(** X16: [rpcConfigFromFlags] fails exactly when the URL flag is blank
    and the variable JUNO_RPC_URL is blank too, and then returns three
    empty strings.  Otherwise the URL it returns is the flag, or for a
    blank flag the variable, trimmed, and is not empty and has nothing
    left to trim; the user and the password are the flag, or for a blank
    flag the variable, and are not trimmed. *)
Theorem rpcConfigFromFlags_contract (url user pass : string) :
  (TrimSpace (orEnv url "JUNO_RPC_URL") = "" ->
   config url user pass
   = ("", "", "", Some (errors_New "rpc-url is required (or set JUNO_RPC_URL)")))
  /\ (TrimSpace (orEnv url "JUNO_RPC_URL") <> "" ->
      exists u,
        config url user pass
        = (u, orEnv user "JUNO_RPC_USER", orEnv pass "JUNO_RPC_PASS", None)
        /\ u = TrimSpace (orEnv url "JUNO_RPC_URL")
        /\ u <> ""
        /\ TrimSpace u = u
        /\ (TrimSpace url <> "" -> u = TrimSpace url)).
Proof.
  unfold Cli.rpcConfigFromFlags, Cli.flagOrEnv. split; intro H.
  - rewrite H. reflexivity.
  - apply String.eqb_neq in H. rewrite H. apply String.eqb_neq in H.
    eexists. split; [reflexivity |].
    repeat split; try assumption.
    + apply TrimSpace_idempotent.
    + intro N. apply String.eqb_neq in N. rewrite N. reflexivity.
Qed.

(** X17: [loadHexInput] wants exactly one source.  With both the value
    and the path blank it fails naming the two flags; with neither blank
    it fails with the conflict error; with only the value it returns the
    value trimmed, which is not empty.  In none of the three does the
    result depend on the file system. *)
Theorem loadHexInput_inline (hexValue filePath hexFlagName fileFlagName : string) :
  (TrimSpace hexValue = "" -> TrimSpace filePath = "" ->
   load hexValue filePath hexFlagName fileFlagName
   = ("", Some (errors_New (hexFlagName ++ " is required (or use --"
                            ++ fileFlagName ++ ")"))))
  /\ (TrimSpace hexValue <> "" -> TrimSpace filePath <> "" ->
      load hexValue filePath hexFlagName fileFlagName
      = ("", Some (errors_New ("input source conflict (use only one of --"
                               ++ hexFlagName ++ ", --" ++ fileFlagName ++ ")"))))
  /\ (TrimSpace hexValue <> "" -> TrimSpace filePath = "" ->
      load hexValue filePath hexFlagName fileFlagName
      = (TrimSpace hexValue, None)).
Proof.
  unfold Cli.loadHexInput. repeat split; intros H1 H2.
  - rewrite H1, H2. reflexivity.
  - apply String.eqb_neq in H1, H2. rewrite H1, H2. reflexivity.
  - apply String.eqb_neq in H1. rewrite H1, H2. reflexivity.
Qed.

(** X18: with only the path given, [loadHexInput] reads the file at the
    trimmed path.  A read error comes back wrapped under "read ", the
    base name of the path and ": ", with the empty string; otherwise the
    result is the contents trimmed, which may be empty.  Whatever the
    source, a result without error has nothing left to trim, and a result
    with an error is the empty string. *)
Theorem loadHexInput_file (hexValue filePath hexFlagName fileFlagName : string) :
  (TrimSpace hexValue = "" -> TrimSpace filePath <> "" ->
   load hexValue filePath hexFlagName fileFlagName
   = match ReadFile (TrimSpace filePath) with
     | (_, Some err) =>
         ("", Some (Errorf_w ("read " ++ Base (TrimSpace filePath) ++ ": ") err))
     | (b, None) => (TrimSpace b, None)
     end)
  /\ (forall r err,
         load hexValue filePath hexFlagName fileFlagName = (r, err) ->
         (err = None -> TrimSpace r = r) /\ (err <> None -> r = "")).
Proof.
  split.
  - intros H1 H2. unfold Cli.loadHexInput.
    apply String.eqb_neq in H2. rewrite H1, H2. simpl.
    destruct (ReadFile (TrimSpace filePath)) as [b [e |]]; reflexivity.
  - intros r err. unfold Cli.loadHexInput.
    destruct (String.eqb (TrimSpace hexValue) "");
      destruct (String.eqb (TrimSpace filePath) ""); simpl.
    + intro H. injection H as <- <-. split; [discriminate | reflexivity].
    + destruct (ReadFile (TrimSpace filePath)) as [b [e |]];
        intro H; injection H as <- <-.
      * split; [discriminate | reflexivity].
      * split; [intros _; apply TrimSpace_idempotent |].
        intro F. contradiction F. reflexivity.
    + intro H. injection H as <- <-.
      split; [intros _; apply TrimSpace_idempotent |].
      intro F. contradiction F. reflexivity.
    + intro H. injection H as <- <-. split; [discriminate | reflexivity].
Qed.

End CliInputs.

Section CliRuns.

Variable W : Type.
Variable mapLower : string -> string.
Variable Getenv : string -> string.
Variable ReadFile : string -> string * option error.
Variable Base : string -> string.
Variable ParseDuration : string -> Z * option error.
Variable WithTimeout : Z -> Context W.
Variable rpcErrorText : RPCError -> string.
Variable junocashd_New : string -> string -> string -> RPC W.
Variable parseSubmit : list string -> Cli.submitFlags * option error.
Variable parseStatus : list string -> Cli.statusFlags * option error.

Local Abbreviation runSubmit :=
  (Cli.runSubmit W Getenv ReadFile Base ParseDuration WithTimeout rpcErrorText
     parseSubmit).
Local Abbreviation runStatus :=
  (Cli.runStatus W Getenv ParseDuration WithTimeout rpcErrorText parseStatus).
Local Abbreviation defaultFactory :=
  (Cli.defaultFactory W mapLower junocashd_New).
Local Abbreviation orEnv := (Cli.flagOrEnv Getenv).

(** X19: [defaultFactory] never fails: it returns a client on the SDK's
    transport whose poll interval is the one asked for when that is
    positive and the 500 ms default otherwise, so positive in any case. *)
Theorem defaultFactory_always_succeeds (fuel : nat)
  (rpcURL rpcUser rpcPass : string) (poll : Z) :
  exists c,
    defaultFactory fuel rpcURL rpcUser rpcPass poll
    = (Some (Cli.clientRunner W mapLower fuel c), None)
    /\ rpc c = junocashd_New rpcURL rpcUser rpcPass
    /\ pollInterval c = (if 0 <? poll then poll else 500000000)
    /\ 0 < pollInterval c.
Proof.
  unfold Cli.defaultFactory. simpl. unfold WithPollInterval.
  destruct (0 <? poll) eqn:E; eexists; (split; [reflexivity |]); simpl;
    repeat split; try reflexivity.
  apply Z.ltb_lt in E. exact E.
Qed.

Lemma defaultFactory_runner (fuel : nat) (rpcURL rpcUser rpcPass : string)
  (poll : Z) :
  defaultFactory fuel rpcURL rpcUser rpcPass poll
  = (Some (Cli.clientRunner W mapLower fuel
             (WithPollInterval poll
                {| rpc := junocashd_New rpcURL rpcUser rpcPass;
                   pollInterval := 500 * Millisecond |})), None).
Proof. reflexivity. Qed.

Lemma rpcConfigFromFlags_ok (url user pass : string) :
  TrimSpace (orEnv url "JUNO_RPC_URL") <> "" ->
  Cli.rpcConfigFromFlags Getenv url user pass
  = (TrimSpace (orEnv url "JUNO_RPC_URL"), orEnv user "JUNO_RPC_USER",
     orEnv pass "JUNO_RPC_PASS", None).
Proof.
  intro H. unfold Cli.rpcConfigFromFlags, Cli.flagOrEnv in *.
  apply String.eqb_neq in H. rewrite H. reflexivity.
Qed.

Lemma loadHexInput_value (hexValue filePath a b : string) :
  TrimSpace hexValue <> "" -> TrimSpace filePath = "" ->
  Cli.loadHexInput ReadFile Base hexValue filePath a b = (TrimSpace hexValue, None).
Proof.
  intros H1 H2. unfold Cli.loadHexInput.
  apply String.eqb_neq in H1. rewrite H1, H2. reflexivity.
Qed.

Lemma normalizeHex_not_hex (s : string) :
  TrimSpace s <> "" -> validHex (TrimSpace s) = false ->
  normalizeHex s = ("", Some (errors_New "broadcast: raw tx hex must be hex")).
Proof.
  intros H1 H2. unfold normalizeHex.
  apply String.eqb_neq in H1. rewrite H1.
  destruct (DecodeString_invalid _ H2) as [e He]. rewrite He. reflexivity.
Qed.

Lemma Submit_trace (c : Client W) (ctx : Context W) (rawTxHex : string)
  (s : State W) :
  trace (fst (Submit mapLower c ctx rawTxHex s)) = trace s
  \/ trace (fst (Submit mapLower c ctx rawTxHex s))
     = (trace s ++ [EvSendRawTransaction (TrimSpace rawTxHex)])%list.
Proof.
  unfold Submit, normalizeHex.
  destruct (String.eqb (TrimSpace rawTxHex) ""); [left; reflexivity |].
  destruct (snd (DecodeString (TrimSpace rawTxHex))); [left; reflexivity |].
  right. unfold bind, doSendRawTransaction.
  destruct (SendRawTransaction (rpc c) ctx (TrimSpace rawTxHex) (world s))
    as [w [txid [e |]]]; [reflexivity |].
  destruct (badTxID (ToLower mapLower (TrimSpace txid))); reflexivity.
Qed.

(** X20: a [submit] whose [--confirmations] is zero or negative never
    waits.  For every factory and runner: once the flags have parsed, the
    URL is there, the input has loaded, the poll interval parses, the
    factory has given a runner and its [Submit] has returned an
    identifier, the run is over: the machine is as [Submit] left it, the
    one line written (to standard output) is the identifier, bare or in
    the JSON envelope with [--json], and the exit code is 0; the runner's
    [WaitForConfirmations] has no part in it, for a negative target no
    more than for 0.  With the default factory, whatever happens on the
    way, the run returns 0 or 1, neither panics nor polls, and asks of
    the transport at most the one broadcast. *)
Theorem runSubmit_without_wait (fuel : nat) (args : list string)
  (fl : Cli.submitFlags) (p : Cli.Proc W) :
  parseSubmit args = (fl, None) ->
  Cli.sf_confirmations fl <= 0 ->
  (forall (factory : Cli.Factory W) (raw : string) (poll : Z)
          (r : Cli.Runner W) (m : State W) (txid : string),
      TrimSpace (orEnv (Cli.sf_rpcURL fl) "JUNO_RPC_URL") <> "" ->
      Cli.loadHexInput ReadFile Base (Cli.sf_rawTxHex fl) (Cli.sf_rawTxFile fl)
        "raw-tx-hex" "raw-tx-file" = (raw, None) ->
      ParseDuration (Cli.sf_pollStr fl) = (poll, None) ->
      factory (TrimSpace (orEnv (Cli.sf_rpcURL fl) "JUNO_RPC_URL"))
              (orEnv (Cli.sf_rpcUser fl) "JUNO_RPC_USER")
              (orEnv (Cli.sf_rpcPass fl) "JUNO_RPC_PASS") poll
      = (Some r, None) ->
      Cli.rSubmit r (WithTimeout (2 * Cli.Minute)) raw (Cli.machine p)
      = (m, (txid, None)) ->
      runSubmit args factory p
      = ({| Cli.machine := m;
            Cli.stdout :=
              (Cli.stdout p
               ++ [if Cli.sf_jsonOut fl then
                     Cli.JSONLine
                       (Cli.JObject
                          [("data", Cli.JObject [("txid", Cli.JString txid)]);
                           ("status", Cli.JString "ok");
                           ("version", Cli.JString Cli.jsonVersionV1)])
                   else Cli.Line txid])%list;
            Cli.stderr := Cli.stderr p |},
         Returned 0))
  /\ (snd (runSubmit args (defaultFactory fuel) p) = Returned 0
      \/ snd (runSubmit args (defaultFactory fuel) p) = Returned 1)
  /\ (trace (Cli.machine (fst (runSubmit args (defaultFactory fuel) p)))
      = trace (Cli.machine p)
      \/ exists raw,
           trace (Cli.machine (fst (runSubmit args (defaultFactory fuel) p)))
           = (trace (Cli.machine p) ++ [EvSendRawTransaction raw])%list).
Proof.
  intros HP HC.
  assert (Z0 : (0 <? Cli.sf_confirmations fl) = false) by (apply Z.ltb_ge; exact HC).
  split.
  { intros factory raw poll r m txid HU HL HD HF HS.
    unfold Cli.runSubmit. rewrite HP.
    rewrite (rpcConfigFromFlags_ok _ _ _ HU). rewrite HL, HD, HF, HS, Z0.
    unfold Cli.exits, Cli.writeOK, Cli.write.
    destruct (Cli.sf_jsonOut fl); reflexivity. }
  unfold Cli.runSubmit. rewrite HP.
  destruct (Cli.rpcConfigFromFlags Getenv (Cli.sf_rpcURL fl) (Cli.sf_rpcUser fl)
              (Cli.sf_rpcPass fl)) as [[[u us] pa] [e |]].
  { unfold Cli.writeErr. destruct (Cli.sf_jsonOut fl); simpl; auto. }
  destruct (Cli.loadHexInput ReadFile Base (Cli.sf_rawTxHex fl)
              (Cli.sf_rawTxFile fl) "raw-tx-hex" "raw-tx-file") as [raw [e |]].
  { unfold Cli.writeErr. destruct (Cli.sf_jsonOut fl); simpl; auto. }
  destruct (ParseDuration (Cli.sf_pollStr fl)) as [poll [e |]].
  { unfold Cli.writeErr. destruct (Cli.sf_jsonOut fl); simpl; auto. }
  rewrite defaultFactory_runner. cbn [Cli.rSubmit Cli.clientRunner].
  pose proof (Submit_trace
                (WithPollInterval poll
                   {| rpc := junocashd_New u us pa;
                      pollInterval := 500 * Millisecond |})
                (WithTimeout (2 * Cli.Minute)) raw (Cli.machine p)) as T.
  destruct (Submit mapLower _ (WithTimeout (2 * Cli.Minute)) raw (Cli.machine p))
    as [m [txid [e |]]]; simpl in T.
  { unfold Cli.writeErr. destruct (Cli.sf_jsonOut fl); simpl; split; auto;
      destruct T as [T | T]; eauto. }
  rewrite Z0.
  unfold Cli.writeOK. destruct (Cli.sf_jsonOut fl); simpl; split; auto;
    destruct T as [T | T]; eauto.
Qed.

(** X21: input that is not hexadecimal, given on the command line, is
    turned down by [Submit] before anything is sent, and [runSubmit]
    reports that under the code "node_rpc_error" all the same: the run
    writes the error "broadcast: raw tx hex must be hex" with that code,
    returns 1, and the machine is as it was. *)
Theorem runSubmit_reports_bad_hex (fuel : nat) (args : list string)
  (fl : Cli.submitFlags) (poll : Z) (p : Cli.Proc W) :
  parseSubmit args = (fl, None) ->
  TrimSpace (orEnv (Cli.sf_rpcURL fl) "JUNO_RPC_URL") <> "" ->
  TrimSpace (Cli.sf_rawTxHex fl) <> "" ->
  TrimSpace (Cli.sf_rawTxFile fl) = "" ->
  validHex (TrimSpace (Cli.sf_rawTxHex fl)) = false ->
  ParseDuration (Cli.sf_pollStr fl) = (poll, None) ->
  runSubmit args (defaultFactory fuel) p
  = (fst (Cli.writeErr Cli.Stdout Cli.Stderr (Cli.sf_jsonOut fl) "node_rpc_error"
            "broadcast: raw tx hex must be hex" p),
     Returned 1)
  /\ Cli.machine (fst (runSubmit args (defaultFactory fuel) p)) = Cli.machine p.
Proof.
  intros HP HU HV HF HX HD.
  assert (E : runSubmit args (defaultFactory fuel) p
              = (fst (Cli.writeErr Cli.Stdout Cli.Stderr (Cli.sf_jsonOut fl)
                        "node_rpc_error" "broadcast: raw tx hex must be hex" p),
                 Returned 1)).
  { unfold Cli.runSubmit. rewrite HP.
    rewrite (rpcConfigFromFlags_ok _ _ _ HU).
    rewrite (loadHexInput_value _ _ _ _ HV HF). rewrite HD.
    rewrite defaultFactory_runner. cbn [Cli.rSubmit Cli.clientRunner].
    unfold Submit. rewrite normalizeHex_not_hex.
    - unfold ret, Cli.exits, Cli.writeErr.
      destruct (Cli.sf_jsonOut fl); destruct p; reflexivity.
    - rewrite TrimSpace_idempotent. exact HV.
    - rewrite TrimSpace_idempotent. exact HX. }
  split; [exact E |]. rewrite E.
  unfold Cli.writeErr. destruct (Cli.sf_jsonOut fl); reflexivity.
Qed.

(** X22: likewise for [status]: an identifier that is not 64 hexadecimal
    characters is turned down by [Status] before anything is asked of the
    daemon, and [runStatus] reports "broadcast: txid must be 32-byte hex"
    under the code "node_rpc_error", returns 1, and leaves the machine as
    it was. *)
Theorem runStatus_reports_bad_txid (fuel : nat) (args : list string)
  (fl : Cli.statusFlags) (poll : Z) (p : Cli.Proc W) :
  parseStatus args = (fl, None) ->
  TrimSpace (orEnv (Cli.tf_rpcURL fl) "JUNO_RPC_URL") <> "" ->
  TrimSpace (Cli.tf_txid fl) <> "" ->
  is64Hex (normalized mapLower (Cli.tf_txid fl)) = false ->
  ParseDuration (Cli.tf_pollStr fl) = (poll, None) ->
  runStatus args (defaultFactory fuel) p
  = (fst (Cli.writeErr Cli.Stdout Cli.Stderr (Cli.tf_jsonOut fl) "node_rpc_error"
            "broadcast: txid must be 32-byte hex" p),
     Returned 1)
  /\ Cli.machine (fst (runStatus args (defaultFactory fuel) p)) = Cli.machine p.
Proof.
  intros HP HU HT HX HD.
  assert (E : runStatus args (defaultFactory fuel) p
              = (fst (Cli.writeErr Cli.Stdout Cli.Stderr (Cli.tf_jsonOut fl)
                        "node_rpc_error" "broadcast: txid must be 32-byte hex" p),
                 Returned 1)).
  { unfold Cli.runStatus. rewrite HP.
    rewrite (rpcConfigFromFlags_ok _ _ _ HU).
    apply String.eqb_neq in HT. rewrite HT. rewrite HD.
    rewrite defaultFactory_runner. cbn [Cli.rStatus Cli.clientRunner].
    rewrite Status_malformed.
    - unfold Cli.exits, Cli.writeErr.
      destruct (Cli.tf_jsonOut fl); destruct p; reflexivity.
    - unfold normalized in *. rewrite TrimSpace_idempotent. exact HX. }
  split; [exact E |]. rewrite E.
  unfold Cli.writeErr. destruct (Cli.tf_jsonOut fl); reflexivity.
Qed.

(** X23: the exit code of [status].  Once the flags have parsed, the URL
    is there, the identifier is not blank, the poll interval parses and
    the factory has given a runner, the run asks the runner for the status
    of the trimmed identifier under a timeout of 30 seconds and returns 0
    exactly when the answer is found without error, and 1 otherwise; an
    answer that is merely not found is written as the error "unknown
    txid" with the code "not_found", a found one as the status itself. *)
Theorem runStatus_exit_code (args : list string) (factory : Cli.Factory W)
  (fl : Cli.statusFlags) (poll : Z) (r : Cli.Runner W) (p : Cli.Proc W)
  (m : State W) (st : TxStatus) (found : bool) (err : option error) :
  parseStatus args = (fl, None) ->
  TrimSpace (orEnv (Cli.tf_rpcURL fl) "JUNO_RPC_URL") <> "" ->
  TrimSpace (Cli.tf_txid fl) <> "" ->
  ParseDuration (Cli.tf_pollStr fl) = (poll, None) ->
  factory (TrimSpace (orEnv (Cli.tf_rpcURL fl) "JUNO_RPC_URL"))
          (orEnv (Cli.tf_rpcUser fl) "JUNO_RPC_USER")
          (orEnv (Cli.tf_rpcPass fl) "JUNO_RPC_PASS") poll
  = (Some r, None) ->
  Cli.rStatus r (WithTimeout (30 * Cli.Second)) (TrimSpace (Cli.tf_txid fl))
              (Cli.machine p)
  = (m, (st, found, err)) ->
  (snd (runStatus args factory p) = Returned 0 <-> found = true /\ err = None)
  /\ (snd (runStatus args factory p) = Returned 0
      \/ snd (runStatus args factory p) = Returned 1)
  /\ Cli.machine (fst (runStatus args factory p)) = m
  /\ (err = None -> found = false ->
      fst (runStatus args factory p)
      = fst (Cli.writeErr Cli.Stdout Cli.Stderr (Cli.tf_jsonOut fl) "not_found"
               "unknown txid"
               {| Cli.machine := m; Cli.stdout := Cli.stdout p;
                  Cli.stderr := Cli.stderr p |}))
  /\ (err = None -> found = true ->
      fst (runStatus args factory p)
      = fst (Cli.writeOK Cli.Stdout (Cli.tf_jsonOut fl) (Cli.jsonTxStatus st)
               {| Cli.machine := m; Cli.stdout := Cli.stdout p;
                  Cli.stderr := Cli.stderr p |})).
Proof.
  intros HP HU HT HD HF HS.
  unfold Cli.runStatus. rewrite HP.
  rewrite (rpcConfigFromFlags_ok _ _ _ HU).
  apply String.eqb_neq in HT. rewrite HT. rewrite HD, HF, HS.
  unfold Cli.exits, Cli.writeErr, Cli.writeOK.
  destruct err as [e |]; destruct found; destruct (Cli.tf_jsonOut fl); simpl;
    repeat split; auto; try discriminate;
    try (intros [A B]; discriminate); try (intros A B; discriminate);
    try (intro A; discriminate).
Qed.

(** X24: what a run of [status] that returns leaves on the writers: one
    line more on one of them and nothing else.  The exit code is 0, 1 or
    2, and 2 exactly when the flags did not parse; a run that returns 0
    wrote to standard output, and so did every run with [--json] whose
    flags parsed. *)
Theorem runStatus_output (args : list string) (factory : Cli.Factory W)
  (p p' : Cli.Proc W) (code : Z) :
  runStatus args factory p = (p', Returned code) ->
  Cli.wroteOneLine p p'
  /\ (code = 0 \/ code = 1 \/ code = 2)
  /\ (code = 2 <-> snd (parseStatus args) <> None)
  /\ (code = 0 -> Cli.stderr p' = Cli.stderr p)
  /\ (forall fl, parseStatus args = (fl, None) -> Cli.tf_jsonOut fl = true ->
                 Cli.stderr p' = Cli.stderr p).
Proof.
  unfold Cli.runStatus, Cli.wroteOneLine.
  destruct (parseStatus args) as [fl [e |]].
  { simpl. intro H. injection H as <- <-. simpl.
    repeat split; eauto; try discriminate; try (intros; discriminate). }
  destruct (Cli.rpcConfigFromFlags Getenv (Cli.tf_rpcURL fl) (Cli.tf_rpcUser fl)
              (Cli.tf_rpcPass fl)) as [[[u us] pa] [e |]].
  2: destruct (String.eqb (TrimSpace (Cli.tf_txid fl)) "").
  3: destruct (ParseDuration (Cli.tf_pollStr fl)) as [poll [e1 |]].
  4: destruct (factory u us pa poll) as [[r |] [e2 |]].
  5: destruct (Cli.rStatus r (WithTimeout (30 * Cli.Second))
                 (TrimSpace (Cli.tf_txid fl)) (Cli.machine p))
       as [m [[st found] [e3 |]]].
  6: destruct found.
  all: unfold Cli.exits, Cli.writeErr, Cli.writeOK;
    destruct (Cli.tf_jsonOut fl) eqn:J; simpl;
    intro H; try discriminate H; injection H as <- <-; simpl.
  all: repeat split; eauto; try discriminate; try lia;
    try (intro F; contradiction F; reflexivity);
    try (intros fl0 F; injection F as <-; rewrite J; discriminate).
Qed.

(** X25: the same for [submit], whether or not it waits: a run that
    returns has written one line more on one of the writers and nothing
    else; the exit code is 0, 1 or 2, and 2 exactly when the flags did not
    parse; a run that returns 0 wrote to standard output, and so did every
    run with [--json] whose flags parsed. *)
Theorem runSubmit_output (args : list string) (factory : Cli.Factory W)
  (p p' : Cli.Proc W) (code : Z) :
  runSubmit args factory p = (p', Returned code) ->
  Cli.wroteOneLine p p'
  /\ (code = 0 \/ code = 1 \/ code = 2)
  /\ (code = 2 <-> snd (parseSubmit args) <> None)
  /\ (code = 0 -> Cli.stderr p' = Cli.stderr p)
  /\ (forall fl, parseSubmit args = (fl, None) -> Cli.sf_jsonOut fl = true ->
                 Cli.stderr p' = Cli.stderr p).
Proof.
  unfold Cli.runSubmit, Cli.wroteOneLine.
  destruct (parseSubmit args) as [fl [e |]].
  { simpl. intro H. injection H as <- <-. simpl.
    repeat split; eauto; try discriminate; try (intros; discriminate). }
  destruct (Cli.rpcConfigFromFlags Getenv (Cli.sf_rpcURL fl) (Cli.sf_rpcUser fl)
              (Cli.sf_rpcPass fl)) as [[[u us] pa] [e |]].
  2: destruct (Cli.loadHexInput ReadFile Base (Cli.sf_rawTxHex fl)
                 (Cli.sf_rawTxFile fl) "raw-tx-hex" "raw-tx-file") as [raw [e0 |]].
  3: destruct (ParseDuration (Cli.sf_pollStr fl)) as [poll [e1 |]].
  4: destruct (factory u us pa poll) as [[r |] [e2 |]].
  5: destruct (Cli.rSubmit r (WithTimeout (2 * Cli.Minute)) raw (Cli.machine p))
       as [m [txid [e3 |]]].
  6: destruct (0 <? Cli.sf_confirmations fl).
  6: cbn [Cli.machine].
  6: destruct (Cli.rWaitForConfirmations r (WithTimeout (2 * Cli.Minute)) txid
                 (Cli.sf_confirmations fl) m) as [m' [[st [e4 |]] | msg |]].
  all: unfold Cli.exits, Cli.writeErr, Cli.writeOK;
    destruct (Cli.sf_jsonOut fl) eqn:J; simpl;
    intro H; try discriminate H; injection H as <- <-; simpl.
  all: repeat split; eauto; try discriminate; try lia;
    try (intro F; contradiction F; reflexivity);
    try (intros fl0 F; injection F as <-; rewrite J; discriminate).
Qed.

End CliRuns.

(** ** The further properties at work on the doubles *)

Lemma Status_rejects_malformed_txid_witness :
  Status Fake.noUnicode (Fake.client Fake.unindexedNode) Fake.background
    "abc" Fake.start
  = (Fake.start,
     (zeroTxStatus, false,
      Some (errors_New "broadcast: txid must be 32-byte hex")))
  /\ trace (fst (Status Fake.noUnicode (Fake.client Fake.unindexedNode)
                   Fake.background Fake.upperB Fake.start))
     <> trace Fake.start.
Proof.
  split.
  - refine (proj2 (proj1 (Status_rejects_malformed_txid Fake.World Fake.noUnicode
                            (Fake.client Fake.unindexedNode) Fake.background
                            "abc" Fake.start) _)).
    reflexivity.
  - refine (proj2 (Status_rejects_malformed_txid Fake.World Fake.noUnicode
                     (Fake.client Fake.unindexedNode) Fake.background
                     Fake.upperB Fake.start) _).
    vm_compute. reflexivity.
Defined.

Lemma Status_listing_failure_witness :
  Status Fake.noUnicode (Fake.client FakeCli.brokenListingNode) Fake.background
    Fake.txidB Fake.start
  = ({| world := 1%nat; trace := [Fake.lookupB; Fake.listingCall] |},
     (zeroTxStatus, false,
      Some (Errorf_w "broadcast: getrawmempool: " FakeCli.warmingUp))).
Proof.
  refine (proj1 (Status_listing_failure Fake.World Fake.noUnicode
                   (Fake.client FakeCli.brokenListingNode) Fake.background
                   Fake.txidB Fake.start 1%nat 1%nat zeroVerbose Fake.noSuchTx
                   FakeCli.warmingUp [Fake.upperB] _ _ _ _)).
  - vm_compute. reflexivity.
  - reflexivity.
  - vm_compute. reflexivity.
  - reflexivity.
Defined.

Lemma Status_result_shape_witness :
  TxID {| TxID := Fake.txidB; InMempool := true; Confirmations := 0;
          BlockHash := "" |}
  = normalized Fake.noUnicode Fake.upperB.
Proof.
  refine (proj1 (proj2 (proj2 (proj2
            (Status_result_shape Fake.World Fake.noUnicode
               (Fake.client Fake.unindexedNode) Fake.background Fake.upperB
               Fake.start {| world := 1%nat;
                             trace := [Fake.lookupB; Fake.listingCall] |}
               {| TxID := Fake.txidB; InMempool := true; Confirmations := 0;
                  BlockHash := "" |} true None _)) eq_refl))).
  vm_compute. reflexivity.
Defined.

Lemma Submit_transport_error_witness :
  Submit Fake.noUnicode (Fake.client Fake.unindexedNode) Fake.background
    " 00 " Fake.start
  = ({| world := O; trace := [EvSendRawTransaction "00"] |},
     ("", Some (errors_New "fakeRPC: SendRawTransaction not set"))).
Proof.
  refine (Submit_transport_error Fake.World Fake.noUnicode
            (Fake.client Fake.unindexedNode) Fake.background " 00 " ""
            Fake.start O (errors_New "fakeRPC: SendRawTransaction not set")
            _ _ _).
  - vm_compute. discriminate.
  - reflexivity.
  - reflexivity.
Defined.

Lemma Submit_success_witness :
  is64Hex Fake.txidA = true
  /\ TrimSpace " 00 " <> ""
  /\ validHex (TrimSpace " 00 ") = true
  /\ trace {| world := O; trace := [EvSendRawTransaction "00"] |}
     = (trace Fake.start ++ [EvSendRawTransaction (TrimSpace " 00 ")])%list.
Proof.
  refine (Submit_success Fake.World Fake.noUnicode (Fake.client Fake.upperNode)
            Fake.background " 00 " Fake.txidA Fake.start
            {| world := O; trace := [EvSendRawTransaction "00"] |} _).
  vm_compute. reflexivity.
Defined.

Lemma Submit_returns_canonical_txid_witness :
  normalized lowerBytes Fake.txidA = Fake.txidA
  /\ is64Hex (normalized lowerBytes Fake.txidA) = true.
Proof.
  refine (Submit_returns_canonical_txid Fake.World lowerBytes
            (Fake.client Fake.upperNode) Fake.background "00" Fake.txidA
            Fake.start {| world := O; trace := [EvSendRawTransaction "00"] |}
            lowerBytes_lowersASCII _).
  vm_compute. reflexivity.
Defined.

Lemma normalizeHex_idempotent_witness :
  ("0aF" <> "" /\ validHex "0aF" = false)
  /\ ("0aFf" <> "" /\ validHex "0aFf" = true
      /\ normalizeHex "0aFf" = ("0aFf", None))
  /\ normalizeHex "0aF" = ("", Some (errors_New "broadcast: raw tx hex must be hex")).
Proof.
  split; [split; [discriminate | reflexivity] |]. split.
  - refine (proj2 (normalizeHex_idempotent "  0aFf " "0aFf" None _) eq_refl).
    reflexivity.
  - reflexivity.
Defined.

Lemma WaitForConfirmations_panics_only_on_bad_interval_witness :
  snd (WaitForConfirmations Fake.noUnicode 3 (Fake.client Fake.miningNode)
         Fake.background Fake.txidB 1 Fake.start)
  <> Panicked "non-positive interval for NewTicker".
Proof.
  refine (proj2 (proj2 (WaitForConfirmations_panics_only_on_bad_interval
                          Fake.World Fake.noUnicode (Fake.client Fake.miningNode)
                          Fake.background Fake.txidB 1 3 Fake.start))
            [Some (-5); None] _ _).
  reflexivity.
Defined.

Lemma WaitForConfirmations_returns_on_cancel_witness :
  WaitForConfirmations Fake.noUnicode 1 (Fake.client Fake.unindexedNode)
    Fake.cancelled Fake.txidB 1 Fake.start
  = ({| world := 1%nat; trace := [Fake.lookupB; Fake.listingCall] |},
     Returned (zeroTxStatus, Some (errors_New "context canceled"))).
Proof.
  refine (proj1 (WaitForConfirmations_returns_on_cancel Fake.World Fake.noUnicode
                   (Fake.client Fake.unindexedNode) Fake.cancelled Fake.txidB 1
                   O 1%nat Fake.start
                   {| world := 1%nat; trace := [Fake.lookupB; Fake.listingCall] |}
                   {| world := 1%nat; trace := [Fake.lookupB; Fake.listingCall] |}
                   {| TxID := Fake.txidB; InMempool := true; Confirmations := 0;
                      BlockHash := "" |} true (errors_New "context canceled")
                   _ _ _ _ _ _ _)).
  - lia.
  - reflexivity.
  - intros j Hj. lia.
  - lia.
  - vm_compute. reflexivity.
  - reflexivity.
  - reflexivity.
Defined.

Lemma WaitForConfirmations_malformed_txid_witness :
  WaitForConfirmations Fake.noUnicode 1 (Fake.client Fake.unindexedNode)
    Fake.background "abc" 1 Fake.start
  = (Fake.start,
     Returned (zeroTxStatus,
               Some (errors_New "broadcast: txid must be 32-byte hex"))).
Proof.
  refine (WaitForConfirmations_malformed_txid Fake.World Fake.noUnicode
            (Fake.client Fake.unindexedNode) Fake.background "abc" 1 O
            Fake.start _ _ _).
  - lia.
  - reflexivity.
  - reflexivity.
Defined.

Lemma WaitForConfirmations_result_shape_witness :
  TxID {| TxID := Fake.txidB; InMempool := false; Confirmations := 1;
          BlockHash := Fake.txidC |}
  = normalized Fake.noUnicode Fake.txidB
  /\ is64Hex (TxID {| TxID := Fake.txidB; InMempool := false; Confirmations := 1;
                      BlockHash := Fake.txidC |}) = true
  /\ (1 = 0
      \/ 1 <= Confirmations {| TxID := Fake.txidB; InMempool := false;
                               Confirmations := 1; BlockHash := Fake.txidC |}).
Proof.
  refine (proj2 (WaitForConfirmations_result_shape Fake.World Fake.noUnicode
                   (Fake.client Fake.miningNode) Fake.background Fake.txidB 1
                   3%nat Fake.start
                   {| TxID := Fake.txidB; InMempool := false; Confirmations := 1;
                      BlockHash := Fake.txidC |} None _) eq_refl).
  vm_compute. reflexivity.
Defined.

Lemma rpcConfigFromFlags_contract_witness :
  Cli.rpcConfigFromFlags FakeCli.emptyEnv "  " "user" "pass"
  = ("", "", "", Some (errors_New "rpc-url is required (or set JUNO_RPC_URL)"))
  /\ exists u,
       Cli.rpcConfigFromFlags FakeCli.env "  " " user " ""
       = (u, Cli.flagOrEnv FakeCli.env " user " "JUNO_RPC_USER",
          Cli.flagOrEnv FakeCli.env "" "JUNO_RPC_PASS", None)
       /\ u = TrimSpace (Cli.flagOrEnv FakeCli.env "  " "JUNO_RPC_URL")
       /\ u <> ""
       /\ TrimSpace u = u
       /\ (TrimSpace "  " <> "" -> u = TrimSpace "  ").
Proof.
  split.
  - apply (proj1 (rpcConfigFromFlags_contract FakeCli.emptyEnv "  " "user" "pass")).
    reflexivity.
  - apply (proj2 (rpcConfigFromFlags_contract FakeCli.env "  " " user " "")).
    vm_compute. discriminate.
Defined.

Lemma loadHexInput_inline_witness :
  Cli.loadHexInput FakeCli.files FakeCli.baseName " " "" "raw-tx-hex" "raw-tx-file"
  = ("", Some (errors_New "raw-tx-hex is required (or use --raw-tx-file)"))
  /\ Cli.loadHexInput FakeCli.files FakeCli.baseName "00" "/tmp/rawtx.hex"
       "raw-tx-hex" "raw-tx-file"
     = ("", Some (errors_New
                    "input source conflict (use only one of --raw-tx-hex, --raw-tx-file)"))
  /\ Cli.loadHexInput FakeCli.files FakeCli.baseName " 00 " " " "raw-tx-hex"
       "raw-tx-file"
     = ("00", None).
Proof.
  split; [| split].
  - apply (proj1 (loadHexInput_inline FakeCli.files FakeCli.baseName " " ""
                    "raw-tx-hex" "raw-tx-file")); reflexivity.
  - apply (proj1 (proj2 (loadHexInput_inline FakeCli.files FakeCli.baseName "00"
                           "/tmp/rawtx.hex" "raw-tx-hex" "raw-tx-file")));
      vm_compute; discriminate.
  - apply (proj2 (proj2 (loadHexInput_inline FakeCli.files FakeCli.baseName " 00 "
                           " " "raw-tx-hex" "raw-tx-file")));
      [vm_compute; discriminate | reflexivity].
Defined.

Lemma loadHexInput_file_witness :
  Cli.loadHexInput FakeCli.files FakeCli.baseName "" " /tmp/rawtx.hex "
    "raw-tx-hex" "raw-tx-file"
  = ("00", None)
  /\ Cli.loadHexInput FakeCli.files FakeCli.baseName "" "/tmp/missing.hex"
       "raw-tx-hex" "raw-tx-file"
     = ("", Some (Errorf_w "read missing.hex: "
                    (errors_New "open /tmp/missing.hex: no such file or directory"))).
Proof.
  split.
  - apply (proj1 (loadHexInput_file FakeCli.files FakeCli.baseName ""
                    " /tmp/rawtx.hex " "raw-tx-hex" "raw-tx-file"));
      [reflexivity | vm_compute; discriminate].
  - apply (proj1 (loadHexInput_file FakeCli.files FakeCli.baseName ""
                    "/tmp/missing.hex" "raw-tx-hex" "raw-tx-file"));
      [reflexivity | vm_compute; discriminate].
Defined.

(** A negative [--confirmations]: one broadcast, the identifier on
    standard output, exit code 0. *)
Lemma runSubmit_without_wait_witness :
  FakeCli.runSubmit FakeCli.submitArgs [] FakeCli.factory FakeCli.boot
  = ({| Cli.machine := {| world := O; trace := [EvSendRawTransaction "00"] |};
        Cli.stdout :=
          [Cli.JSONLine
             (Cli.JObject [("data", Cli.JObject [("txid", Cli.JString Fake.txidA)]);
                           ("status", Cli.JString "ok");
                           ("version", Cli.JString "v1")])];
        Cli.stderr := [] |},
     Returned 0).
Proof.
  refine (proj1 (runSubmit_without_wait Fake.World Fake.noUnicode FakeCli.env
                   FakeCli.files FakeCli.baseName FakeCli.durations
                   FakeCli.timeout FakeCli.rpcText FakeCli.sdk
                   (FakeCli.parsedSubmit FakeCli.submitArgs) 3%nat []
                   FakeCli.submitArgs FakeCli.boot _ _)
            FakeCli.factory "00" (500 * Millisecond)
            (Cli.clientRunner Fake.World Fake.noUnicode 3
               (Fake.client Fake.upperNode))
            {| world := O; trace := [EvSendRawTransaction "00"] |}
            Fake.txidA _ _ _ _ _).
  - reflexivity.
  - simpl. lia.
  - vm_compute. discriminate.
  - reflexivity.
  - reflexivity.
  - reflexivity.
  - vm_compute. reflexivity.
Defined.

Lemma runSubmit_reports_bad_hex_witness :
  FakeCli.runSubmit FakeCli.badSubmitArgs [] FakeCli.factory FakeCli.boot
  = ({| Cli.machine := Fake.start;
        Cli.stdout :=
          [Cli.JSONLine
             (Cli.JObject
                [("error",
                  Cli.JObject
                    [("code", Cli.JString "node_rpc_error");
                     ("message", Cli.JString "broadcast: raw tx hex must be hex")]);
                 ("status", Cli.JString "err");
                 ("version", Cli.JString "v1")])];
        Cli.stderr := [] |},
     Returned 1).
Proof.
  refine (proj1 (runSubmit_reports_bad_hex Fake.World Fake.noUnicode FakeCli.env
                   FakeCli.files FakeCli.baseName FakeCli.durations
                   FakeCli.timeout FakeCli.rpcText FakeCli.sdk
                   (FakeCli.parsedSubmit FakeCli.badSubmitArgs) 3%nat []
                   FakeCli.badSubmitArgs (500 * Millisecond) FakeCli.boot
                   _ _ _ _ _ _)).
  - reflexivity.
  - vm_compute. discriminate.
  - vm_compute. discriminate.
  - reflexivity.
  - reflexivity.
  - reflexivity.
Defined.

Lemma runStatus_reports_bad_txid_witness :
  FakeCli.runStatus (FakeCli.statusArgs "abc") [] FakeCli.factory FakeCli.boot
  = ({| Cli.machine := Fake.start;
        Cli.stdout :=
          [Cli.JSONLine
             (Cli.JObject
                [("error",
                  Cli.JObject
                    [("code", Cli.JString "node_rpc_error");
                     ("message", Cli.JString "broadcast: txid must be 32-byte hex")]);
                 ("status", Cli.JString "err");
                 ("version", Cli.JString "v1")])];
        Cli.stderr := [] |},
     Returned 1).
Proof.
  refine (proj1 (runStatus_reports_bad_txid Fake.World Fake.noUnicode FakeCli.env
                   FakeCli.durations FakeCli.timeout FakeCli.rpcText FakeCli.sdk
                   (FakeCli.parsedStatus (FakeCli.statusArgs "abc")) 3%nat []
                   (FakeCli.statusArgs "abc") (500 * Millisecond) FakeCli.boot
                   _ _ _ _ _)).
  - reflexivity.
  - vm_compute. discriminate.
  - vm_compute. discriminate.
  - reflexivity.
  - reflexivity.
Defined.

(** [TestRun_Status_NotFound]. *)
Lemma runStatus_exit_code_witness :
  fst (FakeCli.runStatus (FakeCli.statusArgs Fake.txidA) []
         FakeCli.unknownFactory FakeCli.boot)
  = {| Cli.machine := Fake.start;
       Cli.stdout :=
         [Cli.JSONLine
            (Cli.JObject
               [("error",
                 Cli.JObject [("code", Cli.JString "not_found");
                              ("message", Cli.JString "unknown txid")]);
                ("status", Cli.JString "err");
                ("version", Cli.JString "v1")])];
       Cli.stderr := [] |}
  /\ (snd (FakeCli.runStatus (FakeCli.statusArgs Fake.txidA) []
              FakeCli.unknownFactory FakeCli.boot) = Returned 0
      \/ snd (FakeCli.runStatus (FakeCli.statusArgs Fake.txidA) []
                 FakeCli.unknownFactory FakeCli.boot) = Returned 1).
Proof.
  pose proof (runStatus_exit_code Fake.World FakeCli.env FakeCli.durations
                FakeCli.timeout FakeCli.rpcText
                (FakeCli.parsedStatus (FakeCli.statusArgs Fake.txidA)) []
                FakeCli.unknownFactory (FakeCli.statusArgs Fake.txidA)
                (500 * Millisecond) FakeCli.unknownRunner FakeCli.boot
                Fake.start zeroTxStatus false None) as H.
  assert (U : TrimSpace (Cli.flagOrEnv FakeCli.env
                           (Cli.tf_rpcURL (FakeCli.statusArgs Fake.txidA))
                           "JUNO_RPC_URL") <> "")
    by (vm_compute; discriminate).
  assert (T : TrimSpace (Cli.tf_txid (FakeCli.statusArgs Fake.txidA)) <> "")
    by (vm_compute; discriminate).
  destruct (H eq_refl U T eq_refl eq_refl eq_refl) as (_ & C & _ & N & _).
  split; [exact (N eq_refl eq_refl) | exact C].
Defined.

Lemma runStatus_output_witness :
  Cli.wroteOneLine FakeCli.boot
    (fst (FakeCli.runStatus (FakeCli.statusArgs Fake.txidA) []
            FakeCli.unknownFactory FakeCli.boot)).
Proof.
  refine (proj1 (runStatus_output Fake.World FakeCli.env FakeCli.durations
                   FakeCli.timeout FakeCli.rpcText
                   (FakeCli.parsedStatus (FakeCli.statusArgs Fake.txidA)) []
                   FakeCli.unknownFactory FakeCli.boot _ 1 _)).
  vm_compute. reflexivity.
Defined.

Lemma runSubmit_output_witness :
  Cli.wroteOneLine FakeCli.boot
    (fst (FakeCli.runSubmit FakeCli.submitArgs [] FakeCli.factory FakeCli.boot)).
Proof.
  refine (proj1 (runSubmit_output Fake.World FakeCli.env FakeCli.files
                   FakeCli.baseName FakeCli.durations FakeCli.timeout
                   FakeCli.rpcText (FakeCli.parsedSubmit FakeCli.submitArgs) []
                   FakeCli.factory FakeCli.boot _ 0 _)).
  vm_compute. reflexivity.
Defined.
